(** * Virtualized drag-and-drop kanban board: model and properties

    A shallow embedding of the board's three classes

    - [VirtualScroller] (js/core/VirtualScroller.js): the windowing
      computation and the add/remove pass over the materialized indices;
    - [DragManager] (js/core/DragManager.js): the pointer handlers of a
      drag session;
    - [KanbanBoard] (js/components/KanbanBoard.js): the column model and
      the commit of a drop,

    and of the timing helpers [debounce] and [throttle]
    (js/utils/performance.js), followed by the properties proved about
    them.

    Modelling conventions.  Pixel quantities, indices and ids are JS
    numbers holding integers and are modelled in [Z]; on such values
    [Math.floor (a / b)] is [a / b] of [Z] and [Math.ceil (a / b)] is
    [- ((- a) / b)] for every non-zero [b].  A JS array is a [list], a
    JS [Set] of numbers a [gset Z].  An item array holds item objects
    only, so the passes [filter (item => item !== null && item !==
    undefined)] keep every entry.  The DOM is represented by what the
    handlers read from it: the datasets of the pressed element, the
    droppable list under the pointer and its bounding rectangle are part
    of the event.  Handlers are followed on the paths where no DOM call
    throws; the one [try] whose failure the code handles by going on, the
    call of the rendering function in [renderVisibleItems], is modelled
    by a rendering function that may return nothing.  Styles, classes,
    timers and animations have no effect on the model and are left out.

    The board is driven by the events of [KanbanBoard.Event]: the pointer
    events of the document and the task form.  Writes to the model by
    the host ([updateData], the object returned by [getData], direct
    calls of [removeItem] and [addItem]) are not among them. *)

From stdpp Require Import base list strings gmap.
From Stdlib Require Import ZArith Lia.

Local Open Scope Z_scope.

(** ** JS number and array primitives used by the three classes *)

Module Js.

(** [Math.floor (a / b)] *)
Definition floor_div (a b : Z) : Z := a / b.

(** [Math.ceil (a / b)] *)
Definition ceil_div (a b : Z) : Z := - ((- a) / b).

(** [a || b] on numbers: [0] is falsy. *)
Definition or_else (a b : Z) : Z := if a =? 0 then b else a.

(** [options.itemHeight || 50], the option being absent or a number *)
Definition option_or (o : option Z) (d : Z) : Z :=
  match o with
  | Some a => or_else a d
  | None => d
  end.

(** [arr[i]]: [undefined] outside the array *)
Definition index {A} (arr : list A) (i : Z) : option A :=
  if i <? 0 then None else arr !! Z.to_nat i.

(** [arr.splice (start, deleteCount, ...new)] for [0 <= start <= length] *)
Definition splice {A} (start deleteCount : nat) (new : list A)
    (arr : list A) : list A :=
  take start arr ++ new ++ drop (start + deleteCount) arr.

End Js.

(** ** The timing helpers of js/utils/performance.js

    A closure returned by [debounce] or [throttle] is followed through
    the two things that happen to it: it is called with arguments, or a
    timer it has set fires.  What is observed is the list of arguments
    with which the wrapped function was invoked. *)

Module Performance.

Section Timing.

Context {Args : Type}.

Inductive Event :=
| Call (args : Args)
| Fire.

(** *** [debounce (func, wait, immediate)]

    The variable [timeout] of the closure holds a timer exactly when one
    is pending: each call clears the timer before it sets the next, and
    the timer's callback [later] resets the variable.  The state is the
    pending timer, given by the arguments its callback has captured. *)

Definition debounce_call (immediate : bool) (timeout : option Args)
    (args : Args) : option Args * list Args :=
  let callNow := immediate && negb (bool_decide (is_Some timeout)) in
  (Some args, if callNow then [args] else []).

(** The callback [later] of the pending timer; with no timer pending
    nothing fires. *)
Definition debounce_later (immediate : bool) (timeout : option Args)
    : option Args * list Args :=
  match timeout with
  | Some args => (None, if negb immediate then [args] else [])
  | None => (None, [])
  end.

Definition debounce_step (immediate : bool) (timeout : option Args)
    (ev : Event) : option Args * list Args :=
  match ev with
  | Call args => debounce_call immediate timeout args
  | Fire => debounce_later immediate timeout
  end.

(** The state after the events and the invocations of [func], in order. *)
Fixpoint debounce_run (immediate : bool) (timeout : option Args)
    (evs : list Event) : option Args * list Args :=
  match evs with
  | [] => (timeout, [])
  | ev :: evs =>
      let '(timeout, now) := debounce_step immediate timeout ev in
      let '(final, later) := debounce_run immediate timeout evs in
      (final, now ++ later)
  end.

(** *** [throttle (func, limit)]

    The state is the variable [inThrottle] and the number of timers set
    and not yet fired. *)









End Timing.

End Performance.

(** ** The data model: [window.kanbanData] *)

Record Item := mkItem { item_id : Z; item_text : string }.

Record Column := mkColumn {
col_id : Z;
col_title : string;
col_items : list Item
}.

(** ** What the handlers read from the DOM *)

Module Dom.

(** [JSON.parse (element.dataset.dragData)] *)
Record DragData := mkDragData {
  dd_id : Z;
  dd_index : Z;
  dd_text : string
}.

(** A [.draggable-item] element.  [closest_droppable] is the column id
    carried by [element.closest ('[data-droppable="true"]')], absent
    when the element is in no droppable list; [sourceColumnId] is the
    dataset entry of that name, absent until a drag start writes it
    ([parseInt] of an absent entry is [NaN], which matches no column). *)
Record Element := mkElement {
  itemIndex : Z;
  itemId : Z;
  dragData : DragData;
  closest_droppable : option Z;
  sourceColumnId : option Z
}.

(** [element.dataset.sourceColumnId = v] *)
Definition set_sourceColumnId (v : option Z) (el : Element) : Element :=
  mkElement (itemIndex el) (itemId el) (dragData el)
            (closest_droppable el) v.

(** The element once appended to the droppable list of column [c]. *)
Definition appendTo (c : Z) (el : Element) : Element :=
  mkElement (itemIndex el) (itemId el) (dragData el)
            (Some c) (sourceColumnId el).

(** A droppable list found by [document.elementsFromPoint]:
    its [dataset.columnId], the top of its bounding rectangle, the
    number of [.draggable-item] children other than the dragged one,
    and the rectangle of its scroll container when it has one. *)
Record DropList := mkDropList {
  columnId : Z;
  rect_top : Z;
  visible_count : Z;
  container_rect : option (Z * Z)
}.

End Dom.

(** ** VirtualScroller *)

Module VirtualScroller.

Record t := mk {
  items : list Item;
  ITEM_HEIGHT : Z;
  BUFFER_ITEMS : Z;
  visibleItems : gset Z
}.

(** [startIndex] and [endIndex] of [renderVisibleItems]; [itemCount] is
    [this.items.length], [scrollTop] and [containerHeight] are read from
    the container.  The item height is not zero: at [0] the quotients of
    the code are not numbers, and the range below is not what it
    computes. *)
Definition visibleRange (itemCount scrollTop containerHeight
    itemHeight bufferItems : Z) : Z * Z :=
  let visibleItemCount := Js.ceil_div containerHeight itemHeight in
  let effectiveBuffer := Z.max bufferItems visibleItemCount in
  let startIndex :=
    Z.max 0 (Js.floor_div scrollTop itemHeight - effectiveBuffer) in
  let endIndex :=
    Z.min itemCount
          (Js.ceil_div (scrollTop + containerHeight) itemHeight
           + effectiveBuffer) in
  (startIndex, endIndex).

(** The indices [startIndex, ..., endIndex - 1] of the [for] loop. *)
Definition rangeIndices (r : Z * Z) : list Z := seqZ r.1 (r.2 - r.1).

(** The outcome of one pass: the indices whose element was removed, the
    indices for which an element was created, and the scroller. *)
Record Pass := mkPass {
  toRemove : gset Z;
  toAdd : list Z;
  after : t
}.

Section Render.

(** [renderItemFn (item, i, ITEM_HEIGHT)]: [None] when the call
    throws (the loop catches the error and goes on). *)
Context {Handle : Type}.
Variable renderItemFn : Item → Z → Z → option Handle.

(** One iteration of the loop that adds the newly visible items. *)
Definition addStep (its : list Item) (h : Z)
    (acc : gset Z * list Z) (i : Z) : gset Z * list Z :=
  let '(visible, added) := acc in
  if decide (i ∈ visible) then acc
  else match Js.index its i with
       | None => acc
       | Some item =>
           match renderItemFn item i h with
           | Some _ => ({[ i ]} ∪ visible, added ++ [i])
           | None => acc
           end
       end.

(** An element is created for index [i]: the item exists and its
    rendering returns. *)
Definition acquired (its : list Item) (h : Z) (i : Z) : bool :=
  match Js.index its i with
  | Some item => bool_decide (is_Some (renderItemFn item i h))
  | None => false
  end.

Definition renderVisibleItems (vs : t) (scrollTop containerHeight : Z)
    : Pass :=
  let r := visibleRange (Z.of_nat (length (items vs))) scrollTop
             containerHeight (ITEM_HEIGHT vs) (BUFFER_ITEMS vs) in
  let startIndex := r.1 in
  let endIndex := r.2 in
  (* remove items that are no longer visible *)
  let removed :=
    filter (λ index, index < startIndex ∨ endIndex ≤ index)
           (visibleItems vs) in
  let kept := visibleItems vs ∖ removed in
  (* add newly visible items *)
  let result :=
    foldl (addStep (items vs) (ITEM_HEIGHT vs)) (kept, [])
          (rangeIndices r) in
  mkPass removed result.2
         (mk (items vs) (ITEM_HEIGHT vs) (BUFFER_ITEMS vs) result.1).

(** [updateItems (newItems)] for an array argument: the data is
    replaced, the materialized set cleared, and the items rendered
    anew. *)
Definition updateItems (vs : t) (newItems : list Item)
    (scrollTop containerHeight : Z) : Pass :=
  renderVisibleItems
    (mk newItems (ITEM_HEIGHT vs) (BUFFER_ITEMS vs) ∅)
    scrollTop containerHeight.

End Render.

(** [new VirtualScroller (container, scrollContent, list, items,
    renderItemFn, itemHeight = 50, bufferItems = 5)]: a missing argument
    takes its default; nothing is materialized until the first pass. *)
Definition new (its : list Item) (itemHeight bufferItems : option Z) : t :=
  mk its (default 50 itemHeight) (default 5 bufferItems) ∅.

(** [this.scrollContent.style.height], in pixels *)
Definition scrollHeight (vs : t) : Z :=
  Z.of_nat (length (items vs)) * ITEM_HEIGHT vs.

End VirtualScroller.

(** ** DragManager *)

Module DragManager.
Import Dom.

(** A reference to a droppable list, as held by [currentDropTarget]:
    [null] (constructor, clean-up), [undefined] (no droppable under the
    pointer) or the list of a column. *)
Inductive Target :=
| Null
| Undefined
| Droppable (columnId : Z).

Global Instance Target_eq_dec : EqDecision Target.
Proof. solve_decision. Defined.

(** Where [this.placeholder] sits: created but not in the document,
    inserted before the [k]-th item of the list (dragged item not
    counted), or appended to the list. *)
Inductive Placeholder :=
| Detached
| InsertedBefore (k : Z)
| Appended.

Record t := mk {
  draggedItem : option Element;
  sourceList : option Z;
  offsetX : Z;
  offsetY : Z;
  currentDropTarget : Target;
  placeholder : option Placeholder;
  placeholderIndex : Z;
  clone : option (Z * Z);
  dragActive : bool;
  itemHeight : Z
}.

(** [clientX], [clientY] and [button] of a pointer event *)
Record PointerEvent := mkEvent {
  button : Z;
  clientX : Z;
  clientY : Z
}.

(** Argument of the [onDragStart] callback *)
Record DragStart := mkDragStart {
  start_item : Element;
  start_sourceList : Z
}.

(** Argument of the [onDrop] callback *)
Record Drop := mkDrop {
  item : Element;
  drop_sourceList : option Z;
  targetList : Z;
  data : DragData;
  position : Z;
  targetIndex : Z;
  animate : bool
}.

(** [new DragManager (options)] *)
Definition new (options_itemHeight : option Z) : t :=
  mk None None 0 0 Null None (-1) None false
     (Js.option_or options_itemHeight 50).

Definition createPlaceholder (dm : t) : t :=
  mk (draggedItem dm) (sourceList dm) (offsetX dm) (offsetY dm)
     (currentDropTarget dm) (Some Detached) (placeholderIndex dm)
     (clone dm) (dragActive dm) (itemHeight dm).

Definition removePlaceholder (dm : t) : t :=
  mk (draggedItem dm) (sourceList dm) (offsetX dm) (offsetY dm)
     (currentDropTarget dm) None (-1)
     (clone dm) (dragActive dm) (itemHeight dm).

(** The clone is moved to [clientX - offsetX], [clientY - offsetY]. *)
Definition updateClonePosition (dm : t) (e : PointerEvent) : t :=
  match clone dm with
  | Some _ =>
      mk (draggedItem dm) (sourceList dm) (offsetX dm) (offsetY dm)
         (currentDropTarget dm) (placeholder dm) (placeholderIndex dm)
         (Some (clientX e - offsetX dm, clientY e - offsetY dm))
         (dragActive dm) (itemHeight dm)
  | None => dm
  end.

(** The dragged element after a callback wrote to its dataset:
    [this.draggedItem] refers to the element the callback received. *)
Definition set_draggedItem (el : option Element) (dm : t) : t :=
  mk el (sourceList dm) (offsetX dm) (offsetY dm)
     (currentDropTarget dm) (placeholder dm) (placeholderIndex dm)
     (clone dm) (dragActive dm) (itemHeight dm).

Definition cleanupDrag (dm : t) : t :=
  let dm := removePlaceholder dm in
  mk None None (offsetX dm) (offsetY dm) Null
     (placeholder dm) (placeholderIndex dm) None false (itemHeight dm).

(** [pointerDownHandler (e)], [e.currentTarget] being [target] with
    bounding rectangle at [rect_left], [rect_top].  The second component
    is the argument handed to [onDragStart]. *)
Definition pointerDownHandler (dm : t) (e : PointerEvent)
    (target : Element) (rect_left rect_top : Z)
    : t * option DragStart :=
  if negb (button e =? 0) then (dm, None)
  else
    let dm :=
      mk (Some target) (closest_droppable target) (offsetX dm)
         (offsetY dm) (currentDropTarget dm) (placeholder dm)
         (placeholderIndex dm) (clone dm) true (itemHeight dm) in
    match sourceList dm with
    | None => (dm, None)
    | Some sl =>
        let dm :=
          mk (draggedItem dm) (sourceList dm)
             (clientX e - rect_left) (clientY e - rect_top)
             (currentDropTarget dm) (placeholder dm)
             (placeholderIndex dm) (Some (0, 0))
             (dragActive dm) (itemHeight dm) in
        let dm := updateClonePosition dm e in
        let dm := createPlaceholder dm in
        (dm, Some (mkDragStart target sl))
    end.

(** [updatePlaceholderPosition (e, dropList)] *)
Definition updatePlaceholderPosition (dm : t) (e : PointerEvent)
    (dropList : DropList) : t :=
  if negb (dragActive dm) || negb (bool_decide (is_Some (draggedItem dm)))
  then dm
  else
    let dm :=
      match placeholder dm with
      | None => createPlaceholder dm
      | Some _ => dm
      end in
    let relativeY := clientY e - rect_top dropList in
    let newIndex := Js.floor_div relativeY (itemHeight dm) in
    if negb (newIndex =? placeholderIndex dm) then
      let dm := createPlaceholder (removePlaceholder dm) in
      let where_ :=
        if (0 <=? newIndex) && (newIndex <? visible_count dropList)
        then InsertedBefore newIndex
        else Appended in
      mk (draggedItem dm) (sourceList dm) (offsetX dm) (offsetY dm)
         (currentDropTarget dm) (Some where_) newIndex
         (clone dm) (dragActive dm) (itemHeight dm)
    else dm.

Definition target_of (dropList : option DropList) : Target :=
  match dropList with
  | Some dl => Droppable (columnId dl)
  | None => Undefined
  end.

(** [pointerMoveHandler (e)] up to the animation-frame request:
    [inDocument] is [document.body.contains (this.draggedItem)]; the
    second component tells whether a frame callback was requested. *)
Definition pointerMoveHandler (dm : t) (e : PointerEvent)
    (inDocument : bool) : t * bool :=
  if negb (dragActive dm) || negb (bool_decide (is_Some (draggedItem dm)))
  then (dm, false)
  else
    let dm := updateClonePosition dm e in
    if negb inDocument then (cleanupDrag dm, false) else (dm, true).

(** The animation-frame callback of [pointerMoveHandler]; [dropList] is
    the droppable list under the pointer when the callback runs.  The
    second component is the change requested of the container's
    [scrollTop]. *)
Definition pointerMoveFrame (dm : t) (e : PointerEvent)
    (dropList : option DropList) : t * option Z :=
  if negb (dragActive dm) || negb (bool_decide (is_Some (draggedItem dm)))
  then (dm, None)
  else
    let dm :=
      if decide (target_of dropList = currentDropTarget dm) then dm
      else
        let dm := removePlaceholder dm in
        let dm :=
          match dropList with
          | Some _ => createPlaceholder dm
          | None => dm
          end in
        mk (draggedItem dm) (sourceList dm) (offsetX dm) (offsetY dm)
           (target_of dropList) (placeholder dm) (placeholderIndex dm)
           (clone dm) (dragActive dm) (itemHeight dm) in
    let dm :=
      match currentDropTarget dm, dropList with
      | Droppable _, Some dl => updatePlaceholderPosition dm e dl
      | _, _ => dm
      end in
    let scroll :=
      match dropList with
      | Some dl =>
          match container_rect dl with
          | Some (top, bottom) =>
              if clientY e <? top + 50 then Some (-10)
              else if bottom - 50 <? clientY e then Some 10
              else None
          | None => None
          end
      | None => None
      end in
    (dm, scroll).

(** [pointerUpHandler (e)]; the second component is the argument handed
    to [onDrop], absent when no droppable list is under the pointer. *)
Definition pointerUpHandler (dm : t) (e : PointerEvent)
    (dropList : option DropList) : t * option Drop :=
  match dragActive dm, draggedItem dm with
  | true, Some dragged =>
      let dm :=
        mk (draggedItem dm) (sourceList dm) (offsetX dm) (offsetY dm)
           (currentDropTarget dm) (placeholder dm) (placeholderIndex dm)
           (clone dm) false (itemHeight dm) in
      let drop :=
        match dropList with
        | Some dl =>
            let relativeY := clientY e - rect_top dl in
            let targetIndex := Js.floor_div relativeY (itemHeight dm) in
            Some (mkDrop dragged (sourceList dm) (columnId dl)
                         (dragData dragged) relativeY targetIndex true)
        | None => None
        end in
      (cleanupDrag dm, drop)
  | _, _ => (dm, None)
  end.

(** No session is open and nothing of the last one is left. *)
Definition idle (dm : t) : Prop :=
  dragActive dm = false ∧ draggedItem dm = None ∧ sourceList dm = None ∧
  clone dm = None ∧ placeholder dm = None ∧ placeholderIndex dm = -1 ∧
  currentDropTarget dm = Null.

End DragManager.

(** ** KanbanBoard *)

Module KanbanBoard.
Import Dom.

(** [data] is [this.data.columns]. *)
Record t := mk {
  data : list Column;
  ITEM_HEIGHT : Z;
  dragManager : DragManager.t
}.

(** Argument of the [onItemMove] callback *)
Record Move := mkMove {
  moved : Item;
  move_sourceColumnId : Z;
  move_targetColumnId : Z;
  sourceIndex : Z;
  move_targetIndex : Z
}.

(** [new KanbanBoard (options)] *)
Definition new (options_data : option (list Column))
    (options_itemHeight : option Z) : t :=
  let h := Js.option_or options_itemHeight 50 in
  mk (default [] options_data) h (DragManager.new (Some h)).

(** [renderItem (item, index, itemHeight)]: the element carries the index
    and the id of the item in its dataset and in its drag data. *)
Definition renderItem (item : Item) (index : Z) : Element :=
  mkElement index (item_id item)
            (mkDragData (item_id item) index (item_text item))
            None None.

(** [this.data.columns.find (col => col.id === columnId)] *)
Definition findColumn (columnId : Z) (columns : list Column)
    : option Column :=
  List.find (λ col, col_id col =? columnId) columns.

(** [column.items = newItems] on the column that [findColumn] returns *)
Fixpoint setItems (columnId : Z) (newItems : list Item)
    (columns : list Column) : list Column :=
  match columns with
  | [] => []
  | col :: rest =>
      if col_id col =? columnId
      then mkColumn (col_id col) (col_title col) newItems :: rest
      else col :: setItems columnId newItems rest
  end.

Definition findItemById (columns : list Column) (columnId itemId : Z)
    : option Item :=
  match findColumn columnId columns with
  | None => None
  | Some column =>
      List.find (λ item, item_id item =? itemId) (col_items column)
  end.

Definition removeItem (columns : list Column) (columnId index : Z)
    : list Column :=
  match findColumn columnId columns with
  | None => columns
  | Some column =>
      if (index <? 0) || (Z.of_nat (length (col_items column)) <=? index)
      then columns
      else
        setItems columnId
                 (Js.splice (Z.to_nat index) 1 [] (col_items column))
                 columns
  end.

Definition addItem (columns : list Column) (columnId index : Z)
    (item : Item) : list Column :=
  match findColumn columnId columns with
  | None => columns
  | Some column =>
      let validIndex :=
        Z.min (Z.max 0 index) (Z.of_nat (length (col_items column))) in
      setItems columnId
               (Js.splice (Z.to_nat validIndex) 0 [item] (col_items column))
               columns
  end.

(** [addNewTask (text, columnId)]; [trimmed] is [text.trim ()] and [now]
    is [Date.now ()]. *)
Definition addNewTask (columns : list Column) (trimmed : string)
    (columnId now : Z) : list Column :=
  if bool_decide (trimmed = EmptyString) then columns
  else
    match findColumn columnId columns with
    | None => columns
    | Some column =>
        setItems columnId (col_items column ++ [mkItem now trimmed]) columns
    end.

(** [handleDragStart (data)]: the source column id is written to the
    dataset of the dragged element. *)
Definition handleDragStart (d : DragManager.DragStart) : Element :=
  set_sourceColumnId (Some (DragManager.start_sourceList d))
                     (DragManager.start_item d).

(** [handleDrop (data)]: the columns after the drop and the move reported
    to [onItemMove]; nothing is reported when the handler returns early. *)
Definition handleDrop (columns : list Column) (itemHeight : Z)
    (d : DragManager.Drop) : list Column * option Move :=
  match sourceColumnId (DragManager.item d) with
  | None => (columns, None)
  | Some sourceColumnId =>
      let targetColumnId := DragManager.targetList d in
      let itemIndex := itemIndex (DragManager.item d) in
      match findItemById columns sourceColumnId
                         (dd_id (DragManager.data d)) with
      | None => (columns, None)
      | Some itemData =>
          let targetIndex :=
            Js.or_else (DragManager.targetIndex d)
                       (Js.floor_div (DragManager.position d) itemHeight) in
          let itemCopy := itemData in
          let columns := removeItem columns sourceColumnId itemIndex in
          let columns := addItem columns targetColumnId targetIndex itemCopy in
          (columns,
           Some (mkMove itemCopy sourceColumnId targetColumnId
                        itemIndex targetIndex))
      end
  end.

(** *** The board driven by its events

    The constructor wires [onDragStart] to [handleDragStart] and [onDrop]
    to [handleDrop]; the events are those the document and the task form
    deliver. *)

Inductive Event :=
| PointerDown (e : DragManager.PointerEvent) (target : Element)
              (rect_left rect_top : Z)
| PointerMove (e : DragManager.PointerEvent) (inDocument : bool)
| AnimationFrame (e : DragManager.PointerEvent) (dropList : option DropList)
| PointerUp (e : DragManager.PointerEvent) (dropList : option DropList)
| AddNewTask (trimmed : string) (columnId now : Z).

Definition step (b : t) (ev : Event) : t :=
  match ev with
  | PointerDown e target rect_left rect_top =>
      let '(dm, start) :=
        DragManager.pointerDownHandler (dragManager b) e target
                                       rect_left rect_top in
      match start with
      | Some d =>
          mk (data b) (ITEM_HEIGHT b)
             (DragManager.set_draggedItem (Some (handleDragStart d)) dm)
      | None => mk (data b) (ITEM_HEIGHT b) dm
      end
  | PointerMove e inDocument =>
      mk (data b) (ITEM_HEIGHT b)
         (DragManager.pointerMoveHandler (dragManager b) e inDocument).1
  | AnimationFrame e dropList =>
      mk (data b) (ITEM_HEIGHT b)
         (DragManager.pointerMoveFrame (dragManager b) e dropList).1
  | PointerUp e dropList =>
      let '(dm, drop) :=
        DragManager.pointerUpHandler (dragManager b) e dropList in
      match drop with
      | Some d => mk (handleDrop (data b) (ITEM_HEIGHT b) d).1
                     (ITEM_HEIGHT b) dm
      | None => mk (data b) (ITEM_HEIGHT b) dm
      end
  | AddNewTask trimmed columnId now =>
      mk (addNewTask (data b) trimmed columnId now)
         (ITEM_HEIGHT b) (dragManager b)
  end.

Definition run (b : t) (evs : list Event) : t := foldl step b evs.

(** All items of the board, column after column, and their ids. *)
Definition allItems (columns : list Column) : list Item :=
  concat (map col_items columns).

Definition allIds (columns : list Column) : list Z :=
  map item_id (allItems columns).

(** [el] is an element that [renderItem] produced for the item at [index]
    of a column of the board and that the scroller of this column
    appended to its list. *)
Definition rendered (columns : list Column) (el : Element) : Prop :=
  ∃ c col item index v,
    findColumn c columns = Some col ∧
    Js.index (col_items col) index = Some item ∧
    el = set_sourceColumnId v (appendTo c (renderItem item index)).

(** What the document guarantees of an event: a pointer-down reaches an
    element of the document, the droppable list under a released pointer
    is the list of a column, and [Date.now ()] is a fresh id. *)
Definition delivered (b : t) (ev : Event) : Prop :=
  match ev with
  | PointerDown _ target _ _ => rendered (data b) target
  | PointerUp _ (Some dl) => is_Some (findColumn (columnId dl) (data b))
  | AddNewTask _ _ now => now ∉ allIds (data b)
  | _ => True
  end.

(** The boards reachable from a board whose item ids are distinct. *)
Inductive reachable : t → Prop :=
| reachable_new columns h :
    NoDup (allIds columns) → reachable (new (Some columns) h)
| reachable_step b ev :
    reachable b → delivered b ev → reachable (step b ev).

(** The events of a drag that is released over no droppable list: presses,
    moves, frame callbacks, and releases with nothing under the pointer. *)
Definition releasesNowhere (ev : Event) : bool :=
  match ev with
  | PointerDown _ _ _ _ | PointerMove _ _ | AnimationFrame _ _ => true
  | PointerUp _ None => true
  | PointerUp _ (Some _) | AddNewTask _ _ _ => false
  end.

(** The events that neither press an item nor add a task: moves, frame
    callbacks and releases. *)
Definition pressFree (ev : Event) : bool :=
  match ev with
  | PointerMove _ _ | AnimationFrame _ _ | PointerUp _ _ => true
  | PointerDown _ _ _ _ | AddNewTask _ _ _ => false
  end.

(** The dataset of [el] agrees with the model: the column it names as its
    source holds, at the index it carries, the item whose id is in its
    drag data. *)
Definition consistent (columns : list Column) (el : Element) : Prop :=
  ∃ src col item,
    sourceColumnId el = Some src ∧
    findColumn src columns = Some col ∧
    Js.index (col_items col) (itemIndex el) = Some item ∧
    item_id item = dd_id (dragData el).

(** What holds of every reachable board: the ids are distinct, the drag
    manager uses the board's item height, and the dragged element, if
    any, agrees with the model. *)
Definition invariant (b : t) : Prop :=
  NoDup (allIds (data b)) ∧
  DragManager.itemHeight (dragManager b) = ITEM_HEIGHT b ∧
  ∀ el, DragManager.draggedItem (dragManager b) = Some el →
        consistent (data b) el.

End KanbanBoard.

(** ** Floor and ceiling of the specification *)

(** The spec's [floor (a / b)] and [ceil (a / b)], for a positive [b], as
    the integers that bracket the quotient. *)
Definition is_floor (a b q : Z) : Prop := q * b ≤ a < (q + 1) * b.
Definition is_ceil (a b c : Z) : Prop := (c - 1) * b < a ≤ c * b.

(** * Properties *)

(** ** Floor and ceiling *)

Lemma floor_div_is_floor a b : 0 < b → is_floor a b (Js.floor_div a b).
Proof.
  intros Hb. unfold is_floor, Js.floor_div.
  pose proof (Z.div_mod a b ltac:(lia)) as Hdm.
  pose proof (Z.mod_pos_bound a b Hb) as Hr. nia.
Qed.

Lemma ceil_div_is_ceil a b : 0 < b → is_ceil a b (Js.ceil_div a b).
Proof.
  intros Hb. unfold is_ceil, Js.ceil_div.
  pose proof (Z.div_mod (- a) b ltac:(lia)) as Hdm.
  pose proof (Z.mod_pos_bound (- a) b Hb) as Hr. nia.
Qed.

Lemma is_floor_unique a b q q' :
  0 < b → is_floor a b q → is_floor a b q' → q = q'.
Proof. unfold is_floor. intros Hb H1 H2. nia. Qed.

Lemma is_ceil_unique a b c c' :
  0 < b → is_ceil a b c → is_ceil a b c' → c = c'.
Proof. unfold is_ceil. intros Hb H1 H2. nia. Qed.

Lemma floor_div_slot relY h k :
  0 < h → k * h ≤ relY < (k + 1) * h → Js.floor_div relY h = k.
Proof.
  intros Hh Hk. eapply is_floor_unique; [exact Hh | | exact Hk].
  by apply floor_div_is_floor.
Qed.

Lemma ceil_div_pos a b : 0 < b → 0 < a → 0 < Js.ceil_div a b.
Proof.
  intros Hb Ha. pose proof (ceil_div_is_ceil a b Hb) as Hc.
  unfold is_ceil in Hc. nia.
Qed.

(** ** The visible range *)

Section Windowing.
Import VirtualScroller.

Variables itemCount scrollOffset viewportHeight itemHeight bufferCount : Z.
Hypothesis itemHeight_pos : 0 < itemHeight.
Hypothesis viewportHeight_pos : 0 < viewportHeight.

Let range :=
  visibleRange itemCount scrollOffset viewportHeight itemHeight bufferCount.
Let effectiveBuffer :=
  Z.max bufferCount (Js.ceil_div viewportHeight itemHeight).

Lemma effectiveBuffer_pos : 0 < effectiveBuffer.
Proof.
  unfold effectiveBuffer.
  pose proof (ceil_div_pos viewportHeight itemHeight). lia.
Qed.

Lemma range_start_le_floor :
  range.1 ≤ Z.max 0 (Js.floor_div scrollOffset itemHeight).
Proof.
  pose proof effectiveBuffer_pos as Hb. unfold effectiveBuffer in Hb.
  unfold range, visibleRange; simpl. lia.
Qed.

Lemma range_end_ge_ceil :
  Z.min itemCount
        (Js.ceil_div (scrollOffset + viewportHeight) itemHeight) ≤ range.2.
Proof.
  pose proof effectiveBuffer_pos as Hb. unfold effectiveBuffer in Hb.
  unfold range, visibleRange; simpl. lia.
Qed.

Lemma covered_by_range i :
  0 ≤ scrollOffset →
  i < itemCount →
  scrollOffset ≤ i * itemHeight < scrollOffset + viewportHeight →
  range.1 ≤ i < range.2.
Proof.
  intros Hs Hi Hvis.
  pose proof range_start_le_floor as Hlo.
  pose proof range_end_ge_ceil as Hhi.
  pose proof (floor_div_is_floor scrollOffset itemHeight itemHeight_pos)
    as Hf.
  pose proof (ceil_div_is_ceil (scrollOffset + viewportHeight) itemHeight
                itemHeight_pos) as Hc.
  unfold is_floor in Hf. unfold is_ceil in Hc.
  assert (Js.floor_div scrollOffset itemHeight ≤ i) by nia.
  assert (0 ≤ i) by nia.
  assert (i < Js.ceil_div (scrollOffset + viewportHeight) itemHeight)
    by nia.
  lia.
Qed.

End Windowing.

(** C3.  Windowing coverage: for a non-negative item count, a scroll
    offset between [0] and [itemCount * itemHeight], a positive viewport
    height and an index [i < itemCount] whose top [i * itemHeight] lies in
    [[scrollOffset, scrollOffset + viewportHeight)], the range computed by
    [renderVisibleItems] satisfies [startIndex <= i < endIndex], and [i]
    is one of the indices the adding loop visits. *)
Theorem windowing_coverage
    (itemCount scrollOffset viewportHeight itemHeight bufferCount i : Z) :
  0 ≤ itemCount →
  0 < itemHeight →
  0 ≤ scrollOffset ≤ itemCount * itemHeight →
  0 < viewportHeight →
  i < itemCount →
  scrollOffset ≤ i * itemHeight < scrollOffset + viewportHeight →
  let r := VirtualScroller.visibleRange itemCount scrollOffset
             viewportHeight itemHeight bufferCount in
  r.1 ≤ i < r.2 ∧ i ∈ VirtualScroller.rangeIndices r.
Proof.
  intros _ Hh Hs Hv Hi Hvis r.
  assert (Hr : r.1 ≤ i < r.2).
  { apply covered_by_range; [done | done | lia | done | done]. }
  split; [exact Hr |].
  unfold VirtualScroller.rangeIndices. apply elem_of_seqZ. lia.
Qed.

Lemma windowing_coverage_witness :
  let r := VirtualScroller.visibleRange 100 120 300 50 5 in
  r.1 ≤ 3 < r.2 ∧ 3 ∈ VirtualScroller.rangeIndices r.
Proof. apply (windowing_coverage 100 120 300 50 5 3); lia. Defined.

(** C4 as stated fails for an empty list scrolled past the buffer: the
    start index is not clamped to the item count, so the range is
    [(8, 0)] and not [(0, 0)]. *)
Lemma visibleRange_empty_not_zero :
  (0 ≤ 1000 ∧ 0 < 600 ∧ 0 < 50 ∧ (0 ≤ 0) ∧ 0 ≤ 5) ∧
  VirtualScroller.visibleRange 0 1000 600 50 5 = (8, 0) ∧
  VirtualScroller.visibleRange 0 1000 600 50 5 ≠ (0, 0).
Proof. split; [lia |]. split; [reflexivity | discriminate]. Qed.

(** C4, amended.  For a non-negative scroll offset, a positive viewport
    height and item height, and non-negative item and buffer counts, the
    computed range is [(max 0 (floor (scrollOffset / itemHeight) -
    effectiveBuffer), min itemCount (ceil ((scrollOffset +
    viewportHeight) / itemHeight) + effectiveBuffer))] with
    [effectiveBuffer = max bufferCount (ceil (viewportHeight /
    itemHeight))].  When the item count is [0] the end index is [0] and
    the range holds no index; it is [(0, 0)] exactly when
    [floor (scrollOffset / itemHeight) <= effectiveBuffer]. *)
Theorem visibleRange_formula
    (itemCount scrollOffset viewportHeight itemHeight bufferCount : Z) :
  0 ≤ scrollOffset →
  0 < viewportHeight →
  0 < itemHeight →
  0 ≤ itemCount →
  0 ≤ bufferCount →
  let r := VirtualScroller.visibleRange itemCount scrollOffset
             viewportHeight itemHeight bufferCount in
  ∃ rawStart rawVisibleCount rawEnd,
    is_floor scrollOffset itemHeight rawStart ∧
    is_ceil viewportHeight itemHeight rawVisibleCount ∧
    is_ceil (scrollOffset + viewportHeight) itemHeight rawEnd ∧
    let effectiveBuffer := Z.max bufferCount rawVisibleCount in
    r = (Z.max 0 (rawStart - effectiveBuffer),
         Z.min itemCount (rawEnd + effectiveBuffer)) ∧
    (itemCount = 0 →
       r.2 = 0 ∧ VirtualScroller.rangeIndices r = [] ∧
       (r = (0, 0) ↔ rawStart ≤ effectiveBuffer)).
Proof.
  intros Hs Hv Hh Hc Hb r.
  exists (Js.floor_div scrollOffset itemHeight),
         (Js.ceil_div viewportHeight itemHeight),
         (Js.ceil_div (scrollOffset + viewportHeight) itemHeight).
  split; [by apply floor_div_is_floor |].
  split; [by apply ceil_div_is_ceil |].
  split; [by apply ceil_div_is_ceil |].
  split; [reflexivity |].
  intros ->.
  pose proof (ceil_div_pos viewportHeight itemHeight Hh Hv) as Hvc.
  pose proof (ceil_div_pos (scrollOffset + viewportHeight) itemHeight Hh
                ltac:(lia)) as Hec.
  assert (Hend : r.2 = 0).
  { unfold r, VirtualScroller.visibleRange; simpl. lia. }
  assert (Hstart : 0 ≤ r.1).
  { unfold r, VirtualScroller.visibleRange; simpl. lia. }
  split; [exact Hend |]. split.
  - unfold VirtualScroller.rangeIndices. rewrite Hend.
    unfold seqZ. replace (Z.to_nat (0 - r.1)) with 0%nat by lia. done.
  - unfold r, VirtualScroller.visibleRange in *; simpl in *. split.
    + intros [= H1 H2]. lia.
    + intros Hle. f_equal; lia.
Qed.

Lemma visibleRange_formula_witness :
  let r := VirtualScroller.visibleRange 0 0 600 50 5 in
  ∃ rawStart rawVisibleCount rawEnd,
    is_floor 0 50 rawStart ∧
    is_ceil 600 50 rawVisibleCount ∧
    is_ceil (0 + 600) 50 rawEnd ∧
    let effectiveBuffer := Z.max 5 rawVisibleCount in
    r = (Z.max 0 (rawStart - effectiveBuffer),
         Z.min 0 (rawEnd + effectiveBuffer)) ∧
    (0 = 0 →
       r.2 = 0 ∧ VirtualScroller.rangeIndices r = [] ∧
       (r = (0, 0) ↔ rawStart ≤ effectiveBuffer)).
Proof. apply (visibleRange_formula 0 0 600 50 5); lia. Defined.

(** ** Columns: lookup and assignment *)

Section Columns.
Import KanbanBoard.

Lemma find_id_None (its : list Item) (k : Z) :
  List.find (λ item, item_id item =? k) its = None ↔
  k ∉ map item_id its.
Proof.
  induction its as [| it its IH]; simpl.
  - split; [intros _; apply not_elem_of_nil | done].
  - destruct (Z.eqb_spec (item_id it) k) as [-> | Hne].
    + split; [done | intros []; left].
    + rewrite IH, not_elem_of_cons. intuition congruence.
Qed.

Lemma find_id_Some (its : list Item) (k : Z) (it : Item) :
  List.find (λ item, item_id item =? k) its = Some it →
  it ∈ its ∧ item_id it = k.
Proof.
  induction its as [| x its IH]; simpl; [done |].
  destruct (Z.eqb_spec (item_id x) k) as [Hx | Hne].
  - intros [= <-]. split; [left | done].
  - intros H. destruct (IH H) as [? ?]. split; [by right | done].
Qed.

(** The column found by [findColumn] is the first with that id;
    [setItems] rewrites it in place. *)
Lemma findColumn_split (c : Z) (columns : list Column) (col : Column) :
  findColumn c columns = Some col →
  ∃ pre post,
    columns = pre ++ col :: post ∧ col_id col = c ∧
    findColumn c pre = None ∧
    ∀ new, setItems c new columns
           = pre ++ mkColumn (col_id col) (col_title col) new :: post.
Proof.
  unfold findColumn.
  induction columns as [| x columns IH]; simpl; [done |].
  destruct (Z.eqb_spec (col_id x) c) as [Hx | Hne].
  - intros [= <-]. exists [], columns. simpl. done.
  - intros H. destruct (IH H) as (pre & post & -> & Hid & Hpre & Hset).
    exists (x :: pre), post. simpl.
    destruct (Z.eqb_spec (col_id x) c); [done |].
    split_and!; [done | done | done |].
    intros new. by rewrite Hset.
Qed.

Lemma findColumn_app_None (c : Z) (pre rest : list Column) :
  findColumn c pre = None →
  findColumn c (pre ++ rest) = findColumn c rest.
Proof.
  unfold findColumn. induction pre as [| x pre IH]; simpl; [done |].
  destruct (col_id x =? c); [done | exact IH].
Qed.

Lemma findColumn_setItems_eq (c : Z) (new : list Item)
    (columns : list Column) (col : Column) :
  findColumn c columns = Some col →
  findColumn c (setItems c new columns)
  = Some (mkColumn (col_id col) (col_title col) new).
Proof.
  intros H. destruct (findColumn_split _ _ _ H)
    as (pre & post & -> & Hid & Hpre & Hset).
  rewrite Hset, findColumn_app_None by done.
  unfold findColumn; simpl. by rewrite Hid, Z.eqb_refl.
Qed.

Lemma findColumn_setItems_ne (c c' : Z) (new : list Item)
    (columns : list Column) :
  c' ≠ c →
  findColumn c' (setItems c new columns) = findColumn c' columns.
Proof.
  intros Hne. unfold findColumn.
  induction columns as [| x columns IH]; simpl; [done |].
  destruct (Z.eqb_spec (col_id x) c) as [Hx | Hx]; simpl.
  - destruct (Z.eqb_spec (col_id x) c'); [lia | done].
  - destruct (col_id x =? c'); [done | exact IH].
Qed.

Lemma allItems_app (xs ys : list Column) :
  allItems (xs ++ ys) = allItems xs ++ allItems ys.
Proof. unfold allItems. by rewrite map_app, concat_app. Qed.

Lemma allItems_cons (col : Column) (ys : list Column) :
  allItems (col :: ys) = col_items col ++ allItems ys.
Proof. done. Qed.

(** The items of the board are those of the found column and the rest;
    assigning the column's items replaces the former only. *)
Lemma allItems_setItems (c : Z) (columns : list Column) (col : Column) :
  findColumn c columns = Some col →
  ∃ rest,
    allItems columns ≡ₚ col_items col ++ rest ∧
    ∀ new, allItems (setItems c new columns) ≡ₚ new ++ rest.
Proof.
  intros H. destruct (findColumn_split _ _ _ H)
    as (pre & post & -> & Hid & Hpre & Hset).
  exists (allItems pre ++ allItems post). split.
  - rewrite allItems_app, allItems_cons. by rewrite Permutation_app_swap_app.
  - intros new. rewrite Hset, allItems_app, allItems_cons. simpl.
    by rewrite Permutation_app_swap_app.
Qed.

Lemma splice_delete {A} (l : list A) (i : nat) :
  Js.splice i 1 [] l = delete i l.
Proof.
  unfold Js.splice. simpl. revert i.
  induction l as [| x l IH]; intros [| i]; simpl; try done.
  f_equal. rewrite <- IH. by replace (i + 1)%nat with (S i) by lia.
Qed.

Lemma splice_insert_perm {A} (l : list A) (i : nat) (x : A) :
  Js.splice i 0 [x] l ≡ₚ x :: l.
Proof.
  unfold Js.splice. rewrite Nat.add_0_r. simpl.
  rewrite <- Permutation_middle. by rewrite take_drop.
Qed.

Lemma index_Some {A} (l : list A) (i : Z) (x : A) :
  Js.index l i = Some x ↔ 0 ≤ i ∧ l !! Z.to_nat i = Some x.
Proof.
  unfold Js.index. destruct (Z.ltb_spec i 0).
  - split; [done | lia].
  - split; [intros ?; split; [lia | done] | by intros [_ ?]].
Qed.

Lemma index_Some_lt {A} (l : list A) (i : Z) (x : A) :
  Js.index l i = Some x → 0 ≤ i < Z.of_nat (length l).
Proof.
  rewrite index_Some. intros [? H%lookup_lt_Some]. lia.
Qed.

End Columns.

(** ** Removal outside the column *)

(** C10.  [removeItem (columnId, index)] with an index below [0] or not
    below the length of the column, or with a column id that matches no
    column, returns the columns as they are: no items sequence changes. *)
Theorem removeItem_out_of_range
    (columns : list Column) (columnId index : Z) :
  match KanbanBoard.findColumn columnId columns with
  | Some column =>
      index < 0 ∨ Z.of_nat (length (col_items column)) ≤ index
  | None => True
  end →
  KanbanBoard.removeItem columns columnId index = columns.
Proof.
  unfold KanbanBoard.removeItem.
  destruct (KanbanBoard.findColumn columnId columns) as [column |];
    [| done].
  intros Hout.
  destruct (Z.ltb_spec index 0); [done |].
  destruct (Z.leb_spec (Z.of_nat (length (col_items column))) index);
    [done | lia].
Qed.

Lemma removeItem_out_of_range_witness :
  let columns :=
    [mkColumn 0 "To Do" [mkItem 1 "A"; mkItem 2 "B"];
     mkColumn 1 "Done" [mkItem 3 "C"]] in
  KanbanBoard.removeItem columns 0 2 = columns ∧
  KanbanBoard.removeItem columns 1 (-1) = columns ∧
  KanbanBoard.removeItem columns 7 0 = columns.
Proof.
  intros columns. split_and!.
  - apply (removeItem_out_of_range columns 0 2). simpl. lia.
  - apply (removeItem_out_of_range columns 1 (-1)). simpl. lia.
  - apply (removeItem_out_of_range columns 7 0). simpl. done.
Defined.

(** ** A drop whose item is gone *)

(** C6.  When the id of the dragged item is not among the items of the
    origin column (or the origin column does not exist), [handleDrop]
    looks the item up by id, finds nothing, and returns before any
    removal: the columns are unchanged and no move is reported. *)
Theorem handleDrop_absent_id
    (columns : list Column) (itemHeight : Z) (d : DragManager.Drop) :
  (∀ src column,
     Dom.sourceColumnId (DragManager.item d) = Some src →
     KanbanBoard.findColumn src columns = Some column →
     Dom.dd_id (DragManager.data d) ∉ map item_id (col_items column)) →
  KanbanBoard.handleDrop columns itemHeight d = (columns, None).
Proof.
  intros Habsent. unfold KanbanBoard.handleDrop.
  destruct (Dom.sourceColumnId (DragManager.item d)) as [src |]; [| done].
  unfold KanbanBoard.findItemById.
  destruct (KanbanBoard.findColumn src columns) as [column |] eqn:Hcol;
    [| done].
  specialize (Habsent src column eq_refl Hcol).
  apply find_id_None in Habsent. by rewrite Habsent.
Qed.

Lemma handleDrop_absent_id_witness :
  let columns :=
    [mkColumn 0 "To Do" [mkItem 1 "A"; mkItem 2 "B"];
     mkColumn 1 "Done" [mkItem 3 "C"]] in
  let dragged :=
    Dom.mkElement 1 9 (Dom.mkDragData 9 1 "Z") (Some 0) (Some 0) in
  let d := DragManager.mkDrop dragged (Some 0) 1
             (Dom.dragData dragged) 20 0 true in
  KanbanBoard.handleDrop columns 50 d = (columns, None).
Proof.
  intros columns dragged d.
  apply (handleDrop_absent_id columns 50 d).
  intros src column [= <-] [= <-]. simpl.
  rewrite !not_elem_of_cons. split_and!; [done | done |].
  apply not_elem_of_nil.
Defined.

(** ** Removing and inserting one item *)

Section Moves.
Import Dom KanbanBoard.

Lemma removeItem_in_range (columns : list Column) (c i : Z)
    (col : Column) (it : Item) :
  findColumn c columns = Some col →
  Js.index (col_items col) i = Some it →
  removeItem columns c i
  = setItems c (delete (Z.to_nat i) (col_items col)) columns.
Proof.
  intros Hcol Hit. unfold removeItem. rewrite Hcol.
  pose proof (index_Some_lt _ _ _ Hit) as Hlt.
  destruct (Z.ltb_spec i 0); [lia |].
  destruct (Z.leb_spec (Z.of_nat (length (col_items col))) i); [lia |].
  simpl. by rewrite splice_delete.
Qed.

Lemma removeItem_perm (columns : list Column) (c i : Z)
    (col : Column) (it : Item) :
  findColumn c columns = Some col →
  Js.index (col_items col) i = Some it →
  allItems columns ≡ₚ it :: allItems (removeItem columns c i).
Proof.
  intros Hcol Hit. rewrite (removeItem_in_range _ _ _ _ _ Hcol Hit).
  destruct (allItems_setItems _ _ _ Hcol) as (rest & Hall & Hset).
  rewrite Hall, Hset. apply index_Some in Hit as [_ Hit].
  by rewrite (delete_Permutation _ _ _ Hit) at 1.
Qed.

Lemma findColumn_removeItem (columns : list Column) (c i c' : Z) :
  is_Some (findColumn c' columns) →
  is_Some (findColumn c' (removeItem columns c i)).
Proof.
  intros Hc'. unfold removeItem.
  destruct (findColumn c columns) as [col |] eqn:Hcol; [| done].
  destruct ((i <? 0) || _); [done |].
  destruct (decide (c' = c)) as [-> | Hne].
  - by rewrite (findColumn_setItems_eq _ _ _ _ Hcol).
  - by rewrite findColumn_setItems_ne.
Qed.

Lemma addItem_found (columns : list Column) (c i : Z) (it : Item)
    (col : Column) :
  findColumn c columns = Some col →
  let validIndex :=
    Z.min (Z.max 0 i) (Z.of_nat (length (col_items col))) in
  addItem columns c i it
  = setItems c (take (Z.to_nat validIndex) (col_items col)
                ++ it :: drop (Z.to_nat validIndex) (col_items col))
             columns.
Proof.
  intros Hcol. unfold addItem, Js.splice. rewrite Hcol. simpl.
  by rewrite Nat.add_0_r.
Qed.

Lemma addItem_perm (columns : list Column) (c i : Z) (it : Item) :
  is_Some (findColumn c columns) →
  allItems (addItem columns c i it) ≡ₚ it :: allItems columns.
Proof.
  intros [col Hcol]. rewrite (addItem_found _ _ _ _ _ Hcol).
  destruct (allItems_setItems _ _ _ Hcol) as (rest & Hall & Hset).
  rewrite Hall, Hset, <- Permutation_middle. simpl.
  by rewrite take_drop.
Qed.

Lemma allIds_perm (xs ys : list Column) :
  allItems xs ≡ₚ allItems ys → allIds xs ≡ₚ allIds ys.
Proof. unfold allIds. by intros ->. Qed.

(** The ids within one column are distinct when those of the board are. *)
Lemma NoDup_column (columns : list Column) (c : Z) (col : Column) :
  NoDup (allIds columns) →
  findColumn c columns = Some col →
  NoDup (map item_id (col_items col)).
Proof.
  intros Hnd Hcol.
  destruct (allItems_setItems _ _ _ Hcol) as (rest & Hall & _).
  unfold allIds in Hnd. rewrite Hall, map_app in Hnd.
  by apply NoDup_app in Hnd as [? _].
Qed.

Lemma find_id_lookup (its : list Item) (i : nat) (it : Item) :
  NoDup (map item_id its) →
  its !! i = Some it →
  List.find (λ x, item_id x =? item_id it) its = Some it.
Proof.
  revert i. induction its as [| x its IH]; intros i Hnd Hit; [done |].
  simpl in Hnd. apply NoDup_cons in Hnd as [Hx Hnd]. simpl.
  destruct i as [| i]; simpl in Hit.
  - injection Hit as ->. by rewrite Z.eqb_refl.
  - destruct (Z.eqb_spec (item_id x) (item_id it)) as [Heq | Hne].
    + exfalso. apply Hx. rewrite Heq.
      apply list_elem_of_fmap. exists it.
      split; [done |]. by eapply list_elem_of_lookup_2.
    + by eapply IH.
Qed.

End Moves.

(** ** The commit of a drop *)

Section Commit.
Import Dom KanbanBoard.

Variable columns : list Column.
Variable itemHeight : Z.
Variable d : DragManager.Drop.
Hypothesis ids_distinct : NoDup (allIds columns).
Hypothesis dragged_consistent : consistent columns (DragManager.item d).
Hypothesis drag_data : DragManager.data d = dragData (DragManager.item d).
Hypothesis target_exists :
  is_Some (findColumn (DragManager.targetList d) columns).

(** With a consistent dragged element the drop removes the dragged item
    from its column and inserts it into the target column. *)
Lemma handleDrop_commits :
  ∃ src col it,
    sourceColumnId (DragManager.item d) = Some src ∧
    findColumn src columns = Some col ∧
    Js.index (col_items col) (itemIndex (DragManager.item d)) = Some it ∧
    item_id it = dd_id (dragData (DragManager.item d)) ∧
    let targetIndex :=
      Js.or_else (DragManager.targetIndex d)
                 (Js.floor_div (DragManager.position d) itemHeight) in
    handleDrop columns itemHeight d
    = (addItem (removeItem columns src (itemIndex (DragManager.item d)))
               (DragManager.targetList d) targetIndex it,
       Some (mkMove it src (DragManager.targetList d)
                    (itemIndex (DragManager.item d)) targetIndex)).
Proof.
  destruct dragged_consistent as (src & col & it & Hsrc & Hcol & Hit & Hid).
  exists src, col, it. split_and!; try done.
  unfold handleDrop, findItemById. rewrite Hsrc, Hcol, drag_data, <- Hid.
  apply index_Some in Hit as [_ Hit].
  by rewrite (find_id_lookup _ _ _ (NoDup_column _ _ _ ids_distinct Hcol) Hit).
Qed.

Lemma handleDrop_perm :
  allItems (handleDrop columns itemHeight d).1 ≡ₚ allItems columns.
Proof.
  destruct handleDrop_commits
    as (src & col & it & Hsrc & Hcol & Hit & Hid & ->). simpl.
  rewrite addItem_perm by by apply findColumn_removeItem.
  symmetry. by eapply removeItem_perm.
Qed.

Lemma handleDrop_NoDup : NoDup (allIds (handleDrop columns itemHeight d).1).
Proof. by rewrite (allIds_perm _ _ handleDrop_perm). Qed.

End Commit.

(** Consistency is needed.  When the model has been rewritten under an
    open session, so that the index recorded on the dragged element
    addresses another item while the id is still in the column,
    [handleDrop] copies the item found by id and removes the item found
    by index: here "B" is held twice afterwards and "C" is gone. *)
Remark handleDrop_stale_index :
  let columns := [mkColumn 0 "To Do" [mkItem 2 "B"; mkItem 3 "C"]] in
  let dragged :=
    Dom.set_sourceColumnId (Some 0)
      (Dom.appendTo 0 (KanbanBoard.renderItem (mkItem 2 "B") 1)) in
  let d := DragManager.mkDrop dragged (Some 0) 0 (Dom.dragData dragged)
             10 0 true in
  (KanbanBoard.handleDrop columns 50 d).1
  = [mkColumn 0 "To Do" [mkItem 2 "B"; mkItem 2 "B"]].
Proof. reflexivity. Qed.

(** ** What the drag handlers keep *)

Section Handlers.
Import Dom DragManager.

Lemma pointerUpHandler_active (dm : t) (e : PointerEvent)
    (dropList : option DropList) (el : Element) :
  dragActive dm = true →
  draggedItem dm = Some el →
  ∃ dm',
    draggedItem dm' = None ∧ dragActive dm' = false ∧
    itemHeight dm' = itemHeight dm ∧
    pointerUpHandler dm e dropList
    = (dm',
       match dropList with
       | Some dl =>
           Some (mkDrop el (sourceList dm) (columnId dl) (dragData el)
                   (clientY e - rect_top dl)
                   (Js.floor_div (clientY e - rect_top dl) (itemHeight dm))
                   true)
       | None => None
       end).
Proof.
  intros Hactive Hdragged. unfold pointerUpHandler.
  rewrite Hactive, Hdragged. eexists. split_and!; [| | | reflexivity]; done.
Qed.

Lemma pointerUpHandler_idle (dm : t) (e : PointerEvent)
    (dropList : option DropList) :
  dragActive dm = false ∨ draggedItem dm = None →
  pointerUpHandler dm e dropList = (dm, None).
Proof.
  unfold pointerUpHandler. intros [-> | ->]; [done |].
  by destruct (dragActive dm).
Qed.

Lemma updatePlaceholderPosition_keeps (dm : t) (e : PointerEvent)
    (dl : DropList) :
  let dm' := updatePlaceholderPosition dm e dl in
  draggedItem dm' = draggedItem dm ∧ itemHeight dm' = itemHeight dm ∧
  dragActive dm' = dragActive dm ∧ sourceList dm' = sourceList dm ∧
  offsetX dm' = offsetX dm ∧ offsetY dm' = offsetY dm.
Proof.
  unfold updatePlaceholderPosition.
  destruct (negb (dragActive dm) || _); [done |].
  destruct (placeholder dm); simpl; by destruct (negb _).
Qed.

Lemma pointerMoveFrame_keeps (dm : t) (e : PointerEvent)
    (dropList : option DropList) :
  let dm' := (pointerMoveFrame dm e dropList).1 in
  draggedItem dm' = draggedItem dm ∧ itemHeight dm' = itemHeight dm ∧
  dragActive dm' = dragActive dm ∧ sourceList dm' = sourceList dm ∧
  offsetX dm' = offsetX dm ∧ offsetY dm' = offsetY dm.
Proof.
  unfold pointerMoveFrame.
  destruct (negb (dragActive dm) || _); [done |]. simpl.
  destruct (decide _) as [Heq | Hne].
  - destruct (currentDropTarget dm), dropList; try done;
      apply updatePlaceholderPosition_keeps.
  - destruct dropList as [dl |]; simpl; [| done].
    match goal with
    | |- context [updatePlaceholderPosition ?x e dl] =>
        pose proof (updatePlaceholderPosition_keeps x e dl) as H
    end.
    exact H.
Qed.

Lemma pointerMoveHandler_keeps (dm : t) (e : PointerEvent)
    (inDocument : bool) :
  let dm' := (pointerMoveHandler dm e inDocument).1 in
  (draggedItem dm' = draggedItem dm ∨ draggedItem dm' = None) ∧
  itemHeight dm' = itemHeight dm.
Proof.
  unfold pointerMoveHandler, updateClonePosition.
  destruct (negb (dragActive dm) || _); [by split; [left |] |].
  destruct (clone dm), inDocument; simpl; split; auto.
Qed.

Lemma pointerDownHandler_other_button (dm : t) (e : PointerEvent)
    (target : Element) (rect_left rect_top : Z) :
  button e ≠ 0 →
  pointerDownHandler dm e target rect_left rect_top = (dm, None).
Proof.
  intros Hb. unfold pointerDownHandler.
  by destruct (Z.eqb_spec (button e) 0).
Qed.

(** A press of the primary button starts a session on the pressed
    element, whatever the session was. *)
Lemma pointerDownHandler_primary (dm : t) (e : PointerEvent)
    (target : Element) (rect_left rect_top : Z) :
  button e = 0 →
  let r := pointerDownHandler dm e target rect_left rect_top in
  draggedItem r.1 = Some target ∧
  dragActive r.1 = true ∧
  sourceList r.1 = closest_droppable target ∧
  itemHeight r.1 = itemHeight dm ∧
  r.2 = mkDragStart target <$> closest_droppable target ∧
  (is_Some (closest_droppable target) →
   offsetX r.1 = clientX e - rect_left ∧
   offsetY r.1 = clientY e - rect_top).
Proof.
  intros Hb. unfold pointerDownHandler. rewrite Hb. simpl.
  destruct (closest_droppable target) as [sl |]; simpl; by split_and!.
Qed.

End Handlers.

(** ** Reachable boards *)

Section Reachable.
Import Dom KanbanBoard.

Lemma option_or_nonzero (o : option Z) : Js.option_or o 50 ≠ 0.
Proof.
  destruct o as [a |]; simpl; [| done]. unfold Js.or_else.
  by destruct (Z.eqb_spec a 0).
Qed.

Lemma or_else_nonzero (a d : Z) : a ≠ 0 → Js.or_else a d = a.
Proof. intros Ha. unfold Js.or_else. by destruct (Z.eqb_spec a 0). Qed.

Lemma or_else_same (a : Z) : Js.or_else a a = a.
Proof. unfold Js.or_else. by destruct (a =? 0). Qed.

Lemma new_invariant (columns : list Column) (h : option Z) :
  NoDup (allIds columns) → invariant (new (Some columns) h).
Proof.
  intros Hnd. unfold invariant, new; simpl. split_and!; [done | | done].
  apply or_else_nonzero, option_or_nonzero.
Qed.

Lemma consistent_rendered (columns : list Column) (target : Element)
    (c : Z) :
  rendered columns target →
  closest_droppable target = Some c →
  consistent columns (set_sourceColumnId (Some c) target).
Proof.
  intros (c' & col & item & index & v & Hcol & Hit & ->) [= <-].
  by exists c', col, item.
Qed.

Lemma rendered_closest (columns : list Column) (target : Element) :
  rendered columns target → is_Some (closest_droppable target).
Proof. intros (c' & col & item & index & v & _ & _ & ->). by eexists. Qed.

Lemma consistent_addNewTask (columns : list Column) (el : Element)
    (trimmed : string) (c now : Z) :
  consistent columns el →
  consistent (addNewTask columns trimmed c now) el.
Proof.
  intros (src & col & item & Hsrc & Hcol & Hit & Hid).
  unfold addNewTask. case_bool_decide; [by exists src, col, item |].
  destruct (findColumn c columns) as [col' |] eqn:Hc;
    [| by exists src, col, item].
  destruct (decide (src = c)) as [-> | Hne].
  - assert (col' = col) as -> by congruence.
    eexists c, _, item. split_and!; [done | | | done].
    + by apply findColumn_setItems_eq.
    + simpl. apply index_Some in Hit as [? Hit]. apply index_Some.
      split; [done |]. by apply lookup_app_l_Some.
  - exists src, col, item. split_and!; try done.
    by rewrite findColumn_setItems_ne.
Qed.

Lemma NoDup_addNewTask (columns : list Column) (trimmed : string)
    (c now : Z) :
  NoDup (allIds columns) →
  now ∉ allIds columns →
  NoDup (allIds (addNewTask columns trimmed c now)).
Proof.
  intros Hnd Hfresh. unfold addNewTask. case_bool_decide; [done |].
  destruct (findColumn c columns) as [col |] eqn:Hc; [| done].
  destruct (allItems_setItems _ _ _ Hc) as (rest & Hall & Hset).
  assert (Hperm : allIds (setItems c (col_items col ++ [mkItem now trimmed])
                            columns) ≡ₚ now :: allIds columns).
  { unfold allIds. rewrite Hset, Hall, !map_app. simpl.
    rewrite <- (assoc_L (++)). simpl. by rewrite <- Permutation_middle. }
  rewrite Hperm. by apply NoDup_cons.
Qed.

Lemma step_invariant (b : t) (ev : Event) :
  invariant b → delivered b ev → invariant (step b ev).
Proof.
  intros (Hnd & Hh & Hdrag) Hev.
  destruct ev as [e target rl rt | e inDoc | e dropList | e dropList
                  | trimmed c now]; simpl in *.
  - (* pointer down *)
    destruct (decide (DragManager.button e = 0)) as [Hb | Hb].
    + pose proof (pointerDownHandler_primary (dragManager b) e target
                    rl rt Hb) as Hp. simpl in Hp.
      destruct (DragManager.pointerDownHandler _ _ _ _ _) as [dm start].
      simpl in Hp. destruct Hp as (Hd & _ & _ & Hi & -> & _).
      destruct (rendered_closest _ _ Hev) as [c Hc]. rewrite Hc. simpl.
      split_and!; [done | simpl; congruence |].
      intros el [= <-]. by apply consistent_rendered.
    + rewrite pointerDownHandler_other_button by done. by split_and!.
  - (* pointer move *)
    destruct (pointerMoveHandler_keeps (dragManager b) e inDoc)
      as [Hd Hi]. simpl in *.
    split_and!; [done | simpl; congruence |].
    intros el Hel. simpl in Hel. apply Hdrag.
    destruct Hd as [Hd | Hd]; congruence.
  - (* animation frame *)
    destruct (pointerMoveFrame_keeps (dragManager b) e dropList)
      as (Hd & Hi & _). simpl in *.
    split_and!; [done | simpl; congruence |].
    intros el Hel. simpl in Hel. apply Hdrag. congruence.
  - (* pointer up *)
    destruct (DragManager.dragActive (dragManager b)) eqn:Hactive;
      [destruct (DragManager.draggedItem (dragManager b))
         as [el |] eqn:Hel |].
    + destruct (pointerUpHandler_active _ e dropList _ Hactive Hel)
        as (dm' & Hd' & _ & Hi' & ->).
      destruct dropList as [dl |]; simpl.
      * split_and!; simpl; [| congruence | by rewrite Hd'].
        apply handleDrop_NoDup; simpl; auto.
      * split_and!; simpl; [done | congruence | by rewrite Hd'].
    + rewrite pointerUpHandler_idle by auto. simpl.
      split_and!; [done | done |].
      intros el Hel'. simpl in Hel'. congruence.
    + rewrite pointerUpHandler_idle by auto. simpl. by split_and!.
  - (* new task *)
    split_and!; [by apply NoDup_addNewTask | done |].
    intros el Hel. by apply consistent_addNewTask, Hdrag.
Qed.

Lemma reachable_invariant (b : t) : reachable b → invariant b.
Proof.
  induction 1 as [columns h Hnd | b ev _ IH Hev].
  - by apply new_invariant.
  - by apply step_invariant.
Qed.

End Reachable.

(** ** The two columns of a commit *)

Lemma NoDup_delete_notin (its : list Item) (i : nat) (it : Item) :
  NoDup (map item_id its) →
  its !! i = Some it →
  item_id it ∉ map item_id (delete i its).
Proof.
  intros Hnd Hit. rewrite (delete_Permutation _ _ _ Hit) in Hnd.
  simpl in Hnd. by apply NoDup_cons in Hnd as [? _].
Qed.

Lemma length_delete_S {A} (l : list A) (i : nat) (x : A) :
  l !! i = Some x → S (length (delete i l)) = length l.
Proof.
  intros Hx. rewrite length_delete by by eexists.
  apply lookup_lt_Some in Hx. lia.
Qed.

Lemma length_insert_at {A} (l : list A) (v : nat) (x : A) :
  length (take v l ++ x :: drop v l) = S (length l).
Proof. rewrite length_app. simpl. rewrite length_take, length_drop. lia. Qed.

Section CommitColumns.
Import Dom KanbanBoard.

Variable columns : list Column.
Variable itemHeight : Z.
Variable d : DragManager.Drop.
Variables (src : Z) (col tcol : Column) (it : Item).
Hypothesis ids_distinct : NoDup (allIds columns).
Hypothesis drag_data : DragManager.data d = dragData (DragManager.item d).
Hypothesis source : sourceColumnId (DragManager.item d) = Some src.
Hypothesis source_column : findColumn src columns = Some col.
Hypothesis dragged_item :
  Js.index (col_items col) (itemIndex (DragManager.item d)) = Some it.
Hypothesis dragged_id :
  item_id it = dd_id (dragData (DragManager.item d)).
Hypothesis target_column :
  findColumn (DragManager.targetList d) columns = Some tcol.

Let tgt := DragManager.targetList d.
Let i := Z.to_nat (itemIndex (DragManager.item d)).
Let targetIndex :=
  Js.or_else (DragManager.targetIndex d)
             (Js.floor_div (DragManager.position d) itemHeight).

(** The target's items with the dragged item left out. *)
Let base :=
  if decide (src = tgt) then delete i (col_items col) else col_items tcol.
Let validIndex :=
  Z.to_nat (Z.min (Z.max 0 targetIndex) (Z.of_nat (length base))).

Lemma handleDrop_result :
  (handleDrop columns itemHeight d).1
  = addItem (removeItem columns src (itemIndex (DragManager.item d)))
            tgt targetIndex it.
Proof.
  assert (Hc : consistent columns (DragManager.item d))
    by by exists src, col, it.
  destruct (handleDrop_commits columns itemHeight d ids_distinct Hc
              drag_data)
    as (src' & col' & it' & Hsrc & Hcol & Hit & _ & ->).
  simpl. assert (src' = src) as -> by congruence.
  assert (col' = col) as -> by congruence.
  assert (it' = it) as -> by congruence. done.
Qed.

Lemma removeItem_target :
  findColumn tgt (removeItem columns src (itemIndex (DragManager.item d)))
  = Some (mkColumn (col_id tcol) (col_title tcol) base).
Proof.
  rewrite (removeItem_in_range _ _ _ _ _ source_column dragged_item).
  unfold base. destruct (decide (src = tgt)) as [Heq | Hne].
  - rewrite <- Heq. rewrite (findColumn_setItems_eq _ _ _ _ source_column).
    unfold tgt in Heq. rewrite <- Heq in target_column.
    by assert (tcol = col) as -> by congruence.
  - rewrite findColumn_setItems_ne by done. fold tgt in target_column.
    rewrite target_column. by destruct tcol.
Qed.

Lemma handleDrop_target :
  findColumn tgt (handleDrop columns itemHeight d).1
  = Some (mkColumn (col_id tcol) (col_title tcol)
            (take validIndex base ++ it :: drop validIndex base)).
Proof.
  rewrite handleDrop_result.
  rewrite (addItem_found _ _ _ _ _ removeItem_target).
  by rewrite (findColumn_setItems_eq _ _ _ _ removeItem_target).
Qed.

Lemma handleDrop_source :
  src ≠ tgt →
  findColumn src (handleDrop columns itemHeight d).1
  = Some (mkColumn (col_id col) (col_title col) (delete i (col_items col))).
Proof.
  intros Hne. rewrite handleDrop_result.
  rewrite (addItem_found _ _ _ _ _ removeItem_target).
  rewrite findColumn_setItems_ne by done.
  rewrite (removeItem_in_range _ _ _ _ _ source_column dragged_item).
  by rewrite (findColumn_setItems_eq _ _ _ _ source_column).
Qed.

End CommitColumns.

(** ** Drag commits *)

(** C1.  On every reachable board, a pointer release that the document can
    deliver leaves the board with the same items (a permutation of the
    items before, hence the same total), and every item id occurs once
    across all columns.  When the release commits a drag, the dragged
    item is in the target column afterwards; if the target differs from
    the origin, the origin column has lost exactly that item and no
    longer holds its id, and the target column has gained exactly one
    item; if they are equal, the column keeps its length. *)
Theorem commit_relocates (b : KanbanBoard.t) (e : DragManager.PointerEvent)
    (dropList : option Dom.DropList) :
  KanbanBoard.reachable b →
  KanbanBoard.delivered b (KanbanBoard.PointerUp e dropList) →
  let b' := KanbanBoard.step b (KanbanBoard.PointerUp e dropList) in
  KanbanBoard.allItems (KanbanBoard.data b')
    ≡ₚ KanbanBoard.allItems (KanbanBoard.data b) ∧
  length (KanbanBoard.allItems (KanbanBoard.data b'))
    = length (KanbanBoard.allItems (KanbanBoard.data b)) ∧
  NoDup (KanbanBoard.allIds (KanbanBoard.data b')) ∧
  ∀ dragged dl,
    DragManager.dragActive (KanbanBoard.dragManager b) = true →
    DragManager.draggedItem (KanbanBoard.dragManager b) = Some dragged →
    dropList = Some dl →
    ∃ src col tcol it tcol',
      Dom.sourceColumnId dragged = Some src ∧
      KanbanBoard.findColumn src (KanbanBoard.data b) = Some col ∧
      Js.index (col_items col) (Dom.itemIndex dragged) = Some it ∧
      item_id it = Dom.dd_id (Dom.dragData dragged) ∧
      KanbanBoard.findColumn (Dom.columnId dl) (KanbanBoard.data b)
        = Some tcol ∧
      KanbanBoard.findColumn (Dom.columnId dl) (KanbanBoard.data b')
        = Some tcol' ∧
      it ∈ col_items tcol' ∧
      (src = Dom.columnId dl →
         length (col_items tcol') = length (col_items col)) ∧
      (src ≠ Dom.columnId dl →
         length (col_items tcol') = S (length (col_items tcol)) ∧
         (∃ col',
            KanbanBoard.findColumn src (KanbanBoard.data b') = Some col' ∧
            (item_id it ∉ map item_id (col_items col')) ∧
            S (length (col_items col')) = length (col_items col))).
Proof.
  intros Hreach Hev b'.
  pose proof (reachable_invariant _ Hreach) as Hinv.
  pose proof (step_invariant _ _ Hinv Hev) as (Hnd' & _ & _).
  destruct Hinv as (Hnd & Hh & Hdrag).
  assert (Hperm : KanbanBoard.allItems (KanbanBoard.data b')
                    ≡ₚ KanbanBoard.allItems (KanbanBoard.data b)).
  { unfold b'. simpl.
    destruct (DragManager.dragActive (KanbanBoard.dragManager b))
      eqn:Hactive;
      [destruct (DragManager.draggedItem (KanbanBoard.dragManager b))
         as [el |] eqn:Hel |];
      [| rewrite pointerUpHandler_idle by auto; done ..].
    destruct (pointerUpHandler_active _ e dropList _ Hactive Hel)
      as (dm' & _ & _ & _ & ->).
    destruct dropList as [dl |]; simpl; [| done].
    apply handleDrop_perm; simpl; auto. }
  split; [exact Hperm |]. split; [by rewrite Hperm |].
  split; [exact Hnd' |].
  intros dragged dl Hactive Hel ->. simpl in Hev.
  destruct (Hdrag _ Hel) as (src & col & it & Hsrc & Hcol & Hit & Hid).
  destruct Hev as [tcol Htcol].
  unfold b'. simpl.
  destruct (pointerUpHandler_active _ e (Some dl) _ Hactive Hel)
    as (dm' & _ & _ & _ & ->). simpl.
  set (d := DragManager.mkDrop _ _ _ _ _ _ _).
  pose proof (handleDrop_target (KanbanBoard.data b)
                (KanbanBoard.ITEM_HEIGHT b) d src col tcol it Hnd eq_refl
                Hsrc Hcol Hit Hid Htcol) as Htarget.
  pose proof (handleDrop_source (KanbanBoard.data b)
                (KanbanBoard.ITEM_HEIGHT b) d src col tcol it Hnd eq_refl
                Hsrc Hcol Hit Hid Htcol) as Hsource.
  apply index_Some in Hit as [Hi0 Hit'].
  pose proof (length_delete_S _ _ _ Hit') as Hrest.
  pose proof (NoDup_delete_notin _ _ _
                (NoDup_column _ _ _ Hnd Hcol) Hit') as Hnotin.
  simpl in Htarget, Hsource.
  eexists src, col, tcol, it, _.
  split_and!; [done | done | by apply index_Some | done | done
               | exact Htarget | | |].
  - simpl. apply elem_of_app. right. left.
  - intros Heq. simpl. rewrite length_insert_at.
    destruct (decide _); [lia | done].
  - intros Hne. simpl. rewrite length_insert_at.
    destruct (decide _); [done |]. split; [done |].
    eexists. split; [by apply Hsource |]. simpl. split; [done | lia].
Qed.

Lemma commit_relocates_witness :
  let columns :=
    [mkColumn 0 "To Do" [mkItem 1 "A"; mkItem 2 "B"];
     mkColumn 1 "Done" [mkItem 3 "C"]] in
  let pressed := Dom.appendTo 0 (KanbanBoard.renderItem (mkItem 2 "B") 1) in
  let b :=
    KanbanBoard.step (KanbanBoard.new (Some columns) (Some 50))
      (KanbanBoard.PointerDown (DragManager.mkEvent 0 30 80) pressed 20 70) in
  let b' :=
    KanbanBoard.step b
      (KanbanBoard.PointerUp (DragManager.mkEvent 0 330 30)
         (Some (Dom.mkDropList 1 20 1 None))) in
  KanbanBoard.data b'
  = [mkColumn 0 "To Do" [mkItem 1 "A"];
     mkColumn 1 "Done" [mkItem 2 "B"; mkItem 3 "C"]] ∧
  length (KanbanBoard.allItems (KanbanBoard.data b'))
  = length (KanbanBoard.allItems (KanbanBoard.data b)) ∧
  NoDup (KanbanBoard.allIds (KanbanBoard.data b')).
Proof.
  intros columns pressed b b'.
  assert (Hnd : NoDup (KanbanBoard.allIds columns)).
  { apply (bool_decide_unpack _). by vm_compute. }
  assert (Hreach : KanbanBoard.reachable b).
  { apply KanbanBoard.reachable_step;
      [by apply KanbanBoard.reachable_new |].
    simpl. exists 0, (mkColumn 0 "To Do" [mkItem 1 "A"; mkItem 2 "B"]),
             (mkItem 2 "B"), 1, None.
    by split_and!. }
  assert (Hdel : KanbanBoard.delivered b
                   (KanbanBoard.PointerUp (DragManager.mkEvent 0 330 30)
                      (Some (Dom.mkDropList 1 20 1 None)))).
  { simpl. by eexists. }
  destruct (commit_relocates b _ _ Hreach Hdel) as (_ & Hlen & Hnd' & _).
  split; [reflexivity |]. split; [exact Hlen | exact Hnd'].
Defined.

(** ** Drags that commit nothing *)

Lemma step_releasesNowhere (b : KanbanBoard.t) (ev : KanbanBoard.Event) :
  KanbanBoard.releasesNowhere ev = true →
  KanbanBoard.data (KanbanBoard.step b ev) = KanbanBoard.data b.
Proof.
  destruct ev as [e target rl rt | e inDoc | e dropList | e [dl |]
                  | trimmed c now]; simpl; try done.
  - intros _. destruct (DragManager.pointerDownHandler _ _ _ _ _)
      as [dm [start |]]; done.
  - intros _. unfold DragManager.pointerUpHandler.
    destruct (DragManager.dragActive (KanbanBoard.dragManager b)),
      (DragManager.draggedItem (KanbanBoard.dragManager b)); done.
Qed.

(** C5.  Over any sequence of presses, pointer moves, frame callbacks and
    releases with no droppable list under the pointer, the columns of the
    board stay what they were: a drag released over no target leaves the
    model as it was at drag start, and pointer-move processing never
    writes to it. *)
Theorem drag_without_target_keeps_model
    (b : KanbanBoard.t) (evs : list KanbanBoard.Event) :
  forallb KanbanBoard.releasesNowhere evs = true →
  KanbanBoard.data (KanbanBoard.run b evs) = KanbanBoard.data b.
Proof.
  unfold KanbanBoard.run. revert b.
  induction evs as [| ev evs IH]; intros b Hevs; simpl; [done |].
  simpl in Hevs. apply andb_prop in Hevs as [Hev Hevs].
  rewrite IH by done. by apply step_releasesNowhere.
Qed.

Lemma drag_without_target_keeps_model_witness :
  let columns :=
    [mkColumn 0 "To Do" [mkItem 1 "A"; mkItem 2 "B"];
     mkColumn 1 "Done" [mkItem 3 "C"]] in
  let pressed := Dom.appendTo 0 (KanbanBoard.renderItem (mkItem 2 "B") 1) in
  let session :=
    [KanbanBoard.PointerDown (DragManager.mkEvent 0 30 80) pressed 20 70;
     KanbanBoard.PointerMove (DragManager.mkEvent 0 200 90) true;
     KanbanBoard.AnimationFrame (DragManager.mkEvent 0 200 90)
       (Some (Dom.mkDropList 1 20 1 (Some (20, 620))));
     KanbanBoard.PointerMove (DragManager.mkEvent 0 900 700) true;
     KanbanBoard.AnimationFrame (DragManager.mkEvent 0 900 700) None;
     KanbanBoard.PointerUp (DragManager.mkEvent 0 900 700) None] in
  let b := KanbanBoard.new (Some columns) (Some 50) in
  KanbanBoard.data (KanbanBoard.run b session) = columns ∧
  DragManager.dragActive (KanbanBoard.dragManager (KanbanBoard.run b session))
  = false.
Proof.
  intros columns pressed session b. split; [| reflexivity].
  apply (drag_without_target_keeps_model b session). reflexivity.
Defined.

(** ** A press during a session *)

(** C7 as stated fails: a primary-button press that arrives while a
    session is active is not ignored; it replaces the dragged item, the
    origin list and the offsets of the session. *)
Lemma pointerDown_while_active_replaces_session :
  let columns :=
    [mkColumn 0 "To Do" [mkItem 1 "A"; mkItem 2 "B"];
     mkColumn 1 "Done" [mkItem 3 "C"]] in
  let first := Dom.appendTo 0 (KanbanBoard.renderItem (mkItem 1 "A") 0) in
  let second := Dom.appendTo 1 (KanbanBoard.renderItem (mkItem 3 "C") 0) in
  let b0 := KanbanBoard.new (Some columns) (Some 50) in
  let b1 :=
    KanbanBoard.step b0
      (KanbanBoard.PointerDown (DragManager.mkEvent 0 30 30) first 20 20) in
  let b2 :=
    KanbanBoard.step b1
      (KanbanBoard.PointerDown (DragManager.mkEvent 0 340 45) second 320 20)
  in
  let dm1 := KanbanBoard.dragManager b1 in
  let dm2 := KanbanBoard.dragManager b2 in
  DragManager.dragActive dm1 = true ∧
  DragManager.draggedItem dm1
  = Some (Dom.set_sourceColumnId (Some 0) first) ∧
  DragManager.sourceList dm1 = Some 0 ∧
  (DragManager.offsetX dm1, DragManager.offsetY dm1) = (10, 10) ∧
  DragManager.draggedItem dm2
  = Some (Dom.set_sourceColumnId (Some 1) second) ∧
  DragManager.sourceList dm2 = Some 1 ∧
  (DragManager.offsetX dm2, DragManager.offsetY dm2) = (20, 25) ∧
  DragManager.draggedItem dm2 ≠ DragManager.draggedItem dm1 ∧
  DragManager.sourceList dm2 ≠ DragManager.sourceList dm1 ∧
  DragManager.offsetY dm2 ≠ DragManager.offsetY dm1.
Proof. by split_and!. Qed.

(** C7, amended.  The manager holds the fields of one session.  A
    pointer-down with a button other than the primary one is ignored and
    leaves every field as it was.  A pointer-down with the primary button
    is never ignored, also while a session is active: the session becomes
    active on the pressed element, whose droppable list becomes the origin
    list, and when the element is in a droppable list the offsets are
    those of the pointer within the element. *)
Theorem pointerDown_restarts_session
    (dm : DragManager.t) (e : DragManager.PointerEvent)
    (target : Dom.Element) (rect_left rect_top : Z) :
  let r := DragManager.pointerDownHandler dm e target rect_left rect_top in
  if decide (DragManager.button e = 0) then
    DragManager.dragActive r.1 = true ∧
    DragManager.draggedItem r.1 = Some target ∧
    DragManager.sourceList r.1 = Dom.closest_droppable target ∧
    match Dom.closest_droppable target with
    | Some sourceList =>
        DragManager.offsetX r.1 = DragManager.clientX e - rect_left ∧
        DragManager.offsetY r.1 = DragManager.clientY e - rect_top ∧
        r.2 = Some (DragManager.mkDragStart target sourceList)
    | None =>
        DragManager.offsetX r.1 = DragManager.offsetX dm ∧
        DragManager.offsetY r.1 = DragManager.offsetY dm ∧
        r.2 = None
    end
  else r = (dm, None).
Proof.
  intros r. unfold r. destruct (decide _) as [Hb | Hb].
  - unfold DragManager.pointerDownHandler. rewrite Hb. simpl.
    by destruct (Dom.closest_droppable target).
  - by apply pointerDownHandler_other_button.
Qed.

(** ** The insertion index *)

Lemma updatePlaceholderPosition_index (dm : DragManager.t)
    (e : DragManager.PointerEvent) (dl : Dom.DropList) :
  DragManager.dragActive dm = true →
  is_Some (DragManager.draggedItem dm) →
  DragManager.placeholderIndex
    (DragManager.updatePlaceholderPosition dm e dl)
  = Js.floor_div (DragManager.clientY e - Dom.rect_top dl)
                 (DragManager.itemHeight dm).
Proof.
  intros Hactive Hdragged. unfold DragManager.updatePlaceholderPosition.
  rewrite Hactive. rewrite (bool_decide_eq_true_2 _ Hdragged). simpl.
  destruct (DragManager.placeholder dm); simpl;
    destruct (Z.eqb_spec
                (Js.floor_div (DragManager.clientY e - Dom.rect_top dl)
                              (DragManager.itemHeight dm))
                (DragManager.placeholderIndex dm)); simpl; done.
Qed.

Lemma pointerMoveFrame_index (dm : DragManager.t)
    (e : DragManager.PointerEvent) (dl : Dom.DropList) :
  DragManager.dragActive dm = true →
  is_Some (DragManager.draggedItem dm) →
  DragManager.placeholderIndex
    (DragManager.pointerMoveFrame dm e (Some dl)).1
  = Js.floor_div (DragManager.clientY e - Dom.rect_top dl)
                 (DragManager.itemHeight dm).
Proof.
  intros Hactive Hdragged. unfold DragManager.pointerMoveFrame.
  rewrite Hactive. rewrite (bool_decide_eq_true_2 _ Hdragged). simpl.
  destruct (decide _) as [Heq | Hne]; simpl.
  - rewrite <- Heq. by apply updatePlaceholderPosition_index.
  - by rewrite updatePlaceholderPosition_index.
Qed.

(** C2 as stated fails: while the session is active the index is the bare
    floor, not clamped to the length of the target list.  Over a list of
    three items, [500] pixels below its top, the index is [10]. *)
Lemma placeholder_index_not_clamped :
  let columns :=
    [mkColumn 0 "To Do" [mkItem 1 "A"; mkItem 2 "B"; mkItem 3 "C"];
     mkColumn 1 "Done" [mkItem 4 "D"]] in
  let pressed := Dom.appendTo 1 (KanbanBoard.renderItem (mkItem 4 "D") 0) in
  let b :=
    KanbanBoard.run (KanbanBoard.new (Some columns) (Some 50))
      [KanbanBoard.PointerDown (DragManager.mkEvent 0 330 30) pressed 320 20;
       KanbanBoard.PointerMove (DragManager.mkEvent 0 30 520) true;
       KanbanBoard.AnimationFrame (DragManager.mkEvent 0 30 520)
         (Some (Dom.mkDropList 0 20 3 None))] in
  DragManager.dragActive (KanbanBoard.dragManager b) = true ∧
  DragManager.currentDropTarget (KanbanBoard.dragManager b)
  = DragManager.Droppable 0 ∧
  DragManager.placeholderIndex (KanbanBoard.dragManager b) = 10 ∧
  (col_items <$> KanbanBoard.findColumn 0 (KanbanBoard.data b))
  = Some [mkItem 1 "A"; mkItem 2 "B"; mkItem 3 "C"] ∧
  ¬ (0 ≤ 10 ≤ Z.of_nat (length [mkItem 1 "A"; mkItem 2 "B"; mkItem 3 "C"])).
Proof. split_and!; try reflexivity. simpl. lia. Qed.

(** C2, amended.  On a reachable board with an active session and a
    droppable list of the board under the pointer, let [index] be
    [floor ((pointerY - targetListTopY) / itemHeight)].  While the session
    is active the tracked index is [index] itself, not clamped; on release
    the same [index] is handed to the commit; the commit inserts the
    dragged item at [index] clamped to [[0, n]], [n] being the length of
    the target column with the dragged item left out (the target as it is
    when it differs from the origin, the origin with the dragged item
    deleted when they are equal).  A pointer within the [k]-th slot gives
    [index = k], so hovering over slot 3 gives 3. *)
Theorem insertion_index (b : KanbanBoard.t) (e : DragManager.PointerEvent)
    (dl : Dom.DropList) (dragged : Dom.Element) :
  KanbanBoard.reachable b →
  DragManager.dragActive (KanbanBoard.dragManager b) = true →
  DragManager.draggedItem (KanbanBoard.dragManager b) = Some dragged →
  is_Some (KanbanBoard.findColumn (Dom.columnId dl) (KanbanBoard.data b)) →
  let itemHeight := KanbanBoard.ITEM_HEIGHT b in
  let relativeY := DragManager.clientY e - Dom.rect_top dl in
  let index := Js.floor_div relativeY itemHeight in
  DragManager.placeholderIndex
    (KanbanBoard.dragManager
       (KanbanBoard.step b (KanbanBoard.AnimationFrame e (Some dl))))
  = index ∧
  (∃ d, (DragManager.pointerUpHandler (KanbanBoard.dragManager b) e
           (Some dl)).2 = Some d ∧
        DragManager.targetIndex d = index ∧
        DragManager.position d = relativeY) ∧
  (∃ src col tcol it tcol',
     Dom.sourceColumnId dragged = Some src ∧
     KanbanBoard.findColumn src (KanbanBoard.data b) = Some col ∧
     Js.index (col_items col) (Dom.itemIndex dragged) = Some it ∧
     KanbanBoard.findColumn (Dom.columnId dl) (KanbanBoard.data b)
       = Some tcol ∧
     let base :=
       if decide (src = Dom.columnId dl)
       then delete (Z.to_nat (Dom.itemIndex dragged)) (col_items col)
       else col_items tcol in
     let validIndex :=
       Z.to_nat (Z.min (Z.max 0 index) (Z.of_nat (length base))) in
     KanbanBoard.findColumn (Dom.columnId dl)
       (KanbanBoard.data
          (KanbanBoard.step b (KanbanBoard.PointerUp e (Some dl))))
       = Some tcol' ∧
     col_items tcol' = take validIndex base ++ it :: drop validIndex base) ∧
  (∀ k, 0 < itemHeight →
        k * itemHeight ≤ relativeY < (k + 1) * itemHeight → index = k).
Proof.
  intros Hreach Hactive Hel [tcol Htcol] itemHeight relativeY index.
  destruct (reachable_invariant _ Hreach) as (Hnd & Hh & Hdrag).
  destruct (Hdrag _ Hel) as (src & col & it & Hsrc & Hcol & Hit & Hid).
  split_and!.
  - simpl. rewrite pointerMoveFrame_index by (by rewrite ?Hel).
    unfold index, relativeY, itemHeight. by rewrite Hh.
  - destruct (pointerUpHandler_active _ e (Some dl) _ Hactive Hel)
      as (dm' & _ & _ & _ & ->). simpl. eexists. split; [done |].
    simpl. unfold index, relativeY, itemHeight. by rewrite Hh.
  - simpl.
    destruct (pointerUpHandler_active _ e (Some dl) _ Hactive Hel)
      as (dm' & _ & _ & _ & ->). simpl.
    set (d := DragManager.mkDrop _ _ _ _ _ _ _).
    pose proof (handleDrop_target (KanbanBoard.data b)
                  (KanbanBoard.ITEM_HEIGHT b) d src col tcol it Hnd eq_refl
                  Hsrc Hcol Hit Hid Htcol) as Htarget.
    simpl in Htarget. rewrite Hh, or_else_same in Htarget.
    eexists src, col, tcol, it, _.
    split_and!; [done | done | done | done | exact Htarget | done].
  - intros k Hpos Hk. by apply floor_div_slot.
Qed.

Lemma insertion_index_witness :
  let columns :=
    [mkColumn 0 "To Do"
       [mkItem 1 "A"; mkItem 2 "B"; mkItem 3 "C"; mkItem 4 "D";
        mkItem 5 "E"]] in
  let pressed := Dom.appendTo 0 (KanbanBoard.renderItem (mkItem 4 "D") 3) in
  let b :=
    KanbanBoard.step (KanbanBoard.new (Some columns) (Some 50))
      (KanbanBoard.PointerDown (DragManager.mkEvent 0 30 180) pressed 20 170)
  in
  let e := DragManager.mkEvent 0 30 195 in
  let dl := Dom.mkDropList 0 20 4 None in
  DragManager.placeholderIndex
    (KanbanBoard.dragManager
       (KanbanBoard.step b (KanbanBoard.AnimationFrame e (Some dl)))) = 3 ∧
  KanbanBoard.data (KanbanBoard.step b (KanbanBoard.PointerUp e (Some dl)))
  = columns.
Proof.
  intros columns pressed b e dl.
  assert (Hnd : NoDup (KanbanBoard.allIds columns)).
  { apply (bool_decide_unpack _). by vm_compute. }
  assert (Hreach : KanbanBoard.reachable b).
  { apply KanbanBoard.reachable_step;
      [by apply KanbanBoard.reachable_new |].
    simpl. eexists 0, _, (mkItem 4 "D"), 3, None. by split_and!. }
  assert (Htarget : is_Some (KanbanBoard.findColumn (Dom.columnId dl)
                               (KanbanBoard.data b))) by by eexists.
  destruct (insertion_index b e dl _ Hreach eq_refl eq_refl Htarget)
    as (Hindex & _ & _ & Hslot).
  split; [| reflexivity].
  rewrite Hindex. apply Hslot; [reflexivity |].
  split; [by vm_compute | reflexivity].
Defined.

(** ** A drag within one list *)

Lemma step_PointerDown_primary (b : KanbanBoard.t)
    (e : DragManager.PointerEvent) (target : Dom.Element)
    (rect_left rect_top c : Z) :
  DragManager.button e = 0 →
  Dom.closest_droppable target = Some c →
  let b' :=
    KanbanBoard.step b (KanbanBoard.PointerDown e target rect_left rect_top)
  in
  KanbanBoard.data b' = KanbanBoard.data b ∧
  KanbanBoard.ITEM_HEIGHT b' = KanbanBoard.ITEM_HEIGHT b ∧
  DragManager.itemHeight (KanbanBoard.dragManager b')
  = DragManager.itemHeight (KanbanBoard.dragManager b) ∧
  DragManager.dragActive (KanbanBoard.dragManager b') = true ∧
  DragManager.draggedItem (KanbanBoard.dragManager b')
  = Some (Dom.set_sourceColumnId (Some c) target).
Proof.
  intros Hb Hc. simpl.
  pose proof (pointerDownHandler_primary (KanbanBoard.dragManager b) e
                target rect_left rect_top Hb) as Hp. simpl in Hp.
  destruct (DragManager.pointerDownHandler _ _ _ _ _) as [dm start].
  simpl in Hp. destruct Hp as (_ & Hactive & _ & Hheight & -> & _).
  rewrite Hc. simpl. by split_and!.
Qed.

Lemma step_PointerUp_active (b : KanbanBoard.t)
    (e : DragManager.PointerEvent) (dl : Dom.DropList)
    (dragged : Dom.Element) :
  DragManager.dragActive (KanbanBoard.dragManager b) = true →
  DragManager.draggedItem (KanbanBoard.dragManager b) = Some dragged →
  let relativeY := DragManager.clientY e - Dom.rect_top dl in
  KanbanBoard.data (KanbanBoard.step b (KanbanBoard.PointerUp e (Some dl)))
  = (KanbanBoard.handleDrop (KanbanBoard.data b) (KanbanBoard.ITEM_HEIGHT b)
       (DragManager.mkDrop dragged
          (DragManager.sourceList (KanbanBoard.dragManager b))
          (Dom.columnId dl) (Dom.dragData dragged) relativeY
          (Js.floor_div relativeY
             (DragManager.itemHeight (KanbanBoard.dragManager b)))
          true)).1.
Proof.
  intros Hactive Hdragged. simpl.
  by destruct (pointerUpHandler_active _ e (Some dl) _ Hactive Hdragged)
    as (dm' & _ & _ & _ & ->).
Qed.

(** C9.  In the list ["A", "B", "C", "D"] with item height 50, pressing
    "B" (index 1) and releasing the pointer over the same list at a
    relative height in [[100, 150)] (row 2) leaves the list in the order
    ["A", "C", "B", "D"]. *)
Theorem drag_B_to_row_2
    (down up : DragManager.PointerEvent) (rect_left rect_top : Z)
    (dl : Dom.DropList) :
  DragManager.button down = 0 →
  Dom.columnId dl = 0 →
  100 ≤ DragManager.clientY up - Dom.rect_top dl < 150 →
  let columns :=
    [mkColumn 0 "List"
       [mkItem 1 "A"; mkItem 2 "B"; mkItem 3 "C"; mkItem 4 "D"]] in
  let pressed := Dom.appendTo 0 (KanbanBoard.renderItem (mkItem 2 "B") 1) in
  let b :=
    KanbanBoard.run (KanbanBoard.new (Some columns) (Some 50))
      [KanbanBoard.PointerDown down pressed rect_left rect_top;
       KanbanBoard.PointerUp up (Some dl)] in
  KanbanBoard.data b
  = [mkColumn 0 "List"
       [mkItem 1 "A"; mkItem 3 "C"; mkItem 2 "B"; mkItem 4 "D"]] ∧
  map item_text (KanbanBoard.allItems (KanbanBoard.data b))
  = ["A"; "C"; "B"; "D"]%string.
Proof.
  intros Hbutton Hcol Hrow columns pressed b.
  assert (Hfloor : Js.floor_div (DragManager.clientY up - Dom.rect_top dl) 50
                   = 2) by (apply floor_div_slot; lia).
  assert (Hdata : KanbanBoard.data b
                  = [mkColumn 0 "List"
                       [mkItem 1 "A"; mkItem 3 "C"; mkItem 2 "B";
                        mkItem 4 "D"]]).
  { unfold b, KanbanBoard.run. cbn [foldl].
    destruct (step_PointerDown_primary
                (KanbanBoard.new (Some columns) (Some 50)) down pressed
                rect_left rect_top 0 Hbutton eq_refl)
      as (Hd & Hh & Hi & Hactive & Hdragged).
    rewrite (step_PointerUp_active _ up dl _ Hactive Hdragged).
    rewrite Hd, Hh, Hi.
    change (DragManager.itemHeight
              (KanbanBoard.dragManager
                 (KanbanBoard.new (Some columns) (Some 50)))) with 50.
    rewrite Hfloor, Hcol. reflexivity. }
  split; [exact Hdata | by rewrite Hdata].
Qed.

Lemma drag_B_to_row_2_witness :
  let b :=
    KanbanBoard.run
      (KanbanBoard.new
         (Some [mkColumn 0 "List"
                  [mkItem 1 "A"; mkItem 2 "B"; mkItem 3 "C"; mkItem 4 "D"]])
         (Some 50))
      [KanbanBoard.PointerDown (DragManager.mkEvent 0 30 80)
         (Dom.appendTo 0 (KanbanBoard.renderItem (mkItem 2 "B") 1)) 20 70;
       KanbanBoard.PointerUp (DragManager.mkEvent 0 30 145)
         (Some (Dom.mkDropList 0 20 3 None))] in
  map item_text (KanbanBoard.allItems (KanbanBoard.data b))
  = ["A"; "C"; "B"; "D"]%string.
Proof.
  apply (drag_B_to_row_2 (DragManager.mkEvent 0 30 80)
           (DragManager.mkEvent 0 30 145) 20 70
           (Dom.mkDropList 0 20 3 None)); simpl; [done | done | lia].
Defined.

(** ** One pass over the materialized indices *)

Section Diff.
Import VirtualScroller.

Context {Handle : Type}.
Variable renderItemFn : Item → Z → Z → option Handle.
Variable its : list Item.
Variable h : Z.

Lemma addStep_eq (visible : gset Z) (added : list Z) (i : Z) :
  addStep renderItemFn its h (visible, added) i
  = if decide (i ∈ visible) then (visible, added)
    else if acquired renderItemFn its h i
         then ({[ i ]} ∪ visible, added ++ [i])
         else (visible, added).
Proof.
  unfold addStep, acquired. destruct (decide (i ∈ visible)); [done |].
  destruct (Js.index its i) as [item |]; [| done].
  by destruct (renderItemFn item i h).
Qed.

Lemma addStep_fold (indices : list Z) (visible : gset Z) (added : list Z) :
  ∃ new,
    foldl (addStep renderItemFn its h) (visible, added) indices
    = (list_to_set new ∪ visible, added ++ new) ∧
    ∀ i, i ∈ new ↔
         i ∈ indices ∧ (i ∉ visible) ∧ acquired renderItemFn its h i = true.
Proof.
  revert visible added.
  induction indices as [| k indices IH]; intros visible added.
  - exists []. split.
    + simpl. by rewrite (left_id_L ∅ (∪)), app_nil_r.
    + intros i. rewrite !elem_of_nil. tauto.
  - cbn [foldl]. rewrite addStep_eq.
    destruct (decide (k ∈ visible)) as [Hin | Hnotin];
      [| destruct (acquired renderItemFn its h k) eqn:Hacq].
    + destruct (IH visible added) as (new & -> & Hnew).
      exists new. split; [done |]. intros i. rewrite Hnew.
      rewrite elem_of_cons. split; [tauto |].
      intros ([-> | ?] & ? & ?); [done | tauto].
    + destruct (IH ({[k]} ∪ visible) (added ++ [k])) as (new & -> & Hnew).
      exists (k :: new). split.
      * rewrite list_to_set_cons, <- (assoc_L (++)). simpl.
        by rewrite (comm_L (∪) {[k]} (list_to_set new)), <- (assoc_L (∪)).
      * intros i. rewrite !elem_of_cons, Hnew, not_elem_of_union,
          elem_of_singleton.
        destruct (decide (i = k)) as [-> | Hne]; [tauto | tauto].
    + destruct (IH visible added) as (new & -> & Hnew).
      exists new. split; [done |]. intros i. rewrite Hnew.
      rewrite elem_of_cons. split; [tauto |].
      intros ([-> | ?] & ? & ?); [congruence | tauto].
Qed.

End Diff.

(** C8.  In one pass of [renderVisibleItems], for a scroller whose item
    height is not zero, over a materialized set [previousSet] and the new
    range [newIndices = [startIndex, endIndex)]: the removed indices are
    [previousSet \ newIndices]; the added indices are those of
    [newIndices \ previousSet] for which an element was created, all of
    them when the rendering function returns for every item; the two sets
    are disjoint; and an index that was materialized and is still in the
    range is in neither of them and stays materialized. *)
Theorem diff_minimality {Handle : Type}
    (renderItemFn : Item → Z → Z → option Handle)
    (vs : VirtualScroller.t) (scrollTop containerHeight : Z) :
  VirtualScroller.ITEM_HEIGHT vs ≠ 0 →
  let r :=
    VirtualScroller.visibleRange
      (Z.of_nat (length (VirtualScroller.items vs))) scrollTop
      containerHeight (VirtualScroller.ITEM_HEIGHT vs)
      (VirtualScroller.BUFFER_ITEMS vs) in
  let previousSet := VirtualScroller.visibleItems vs in
  let newIndices : gset Z := list_to_set (VirtualScroller.rangeIndices r) in
  let pass :=
    VirtualScroller.renderVisibleItems renderItemFn vs scrollTop
      containerHeight in
  let toRemove := VirtualScroller.toRemove pass in
  let toAdd : gset Z := list_to_set (VirtualScroller.toAdd pass) in
  toRemove = previousSet ∖ newIndices ∧
  toAdd = filter (λ i, VirtualScroller.acquired renderItemFn
                         (VirtualScroller.items vs)
                         (VirtualScroller.ITEM_HEIGHT vs) i = true)
                 (newIndices ∖ previousSet) ∧
  ((∀ item i, is_Some (renderItemFn item i (VirtualScroller.ITEM_HEIGHT vs)))
   → toAdd = newIndices ∖ previousSet) ∧
  toAdd ## toRemove ∧
  (∀ i, i ∈ previousSet → i ∈ newIndices →
        (i ∉ toRemove) ∧ (i ∉ toAdd) ∧
        i ∈ VirtualScroller.visibleItems (VirtualScroller.after pass)) ∧
  VirtualScroller.visibleItems (VirtualScroller.after pass)
  = (previousSet ∩ newIndices) ∪ toAdd.
Proof.
  intros _ r previousSet newIndices pass toRemove toAdd.
  assert (Hrange : ∀ i, i ∈ newIndices ↔ r.1 ≤ i < r.2).
  { intros i. unfold newIndices, VirtualScroller.rangeIndices.
    rewrite elem_of_list_to_set, elem_of_seqZ. lia. }
  assert (Hbounds : 0 ≤ r.1 ∧
                    r.2 ≤ Z.of_nat (length (VirtualScroller.items vs))).
  { unfold r, VirtualScroller.visibleRange; simpl. lia. }
  unfold toRemove, toAdd, pass, VirtualScroller.renderVisibleItems.
  cbv zeta. cbn [VirtualScroller.toRemove VirtualScroller.toAdd
                  VirtualScroller.after VirtualScroller.visibleItems].
  fold r previousSet.
  set (removed := filter (λ index, index < r.1 ∨ r.2 ≤ index) previousSet).
  destruct (addStep_fold renderItemFn (VirtualScroller.items vs)
              (VirtualScroller.ITEM_HEIGHT vs)
              (VirtualScroller.rangeIndices r)
              (previousSet ∖ removed) []) as (new & Hfold & Hnew).
  rewrite Hfold. simpl.
  assert (Hremoved : removed = previousSet ∖ newIndices).
  { apply set_eq. intros i. unfold removed.
    rewrite elem_of_filter, elem_of_difference, Hrange. split.
    - intros [? ?]. split; [done | lia].
    - intros [? ?]. split; [lia | done]. }
  assert (Hadded : ∀ i, i ∈ new ↔
            i ∈ newIndices ∧ (i ∉ previousSet) ∧
            VirtualScroller.acquired renderItemFn (VirtualScroller.items vs)
              (VirtualScroller.ITEM_HEIGHT vs) i = true).
  { intros i.
    assert (Hidx : i ∈ VirtualScroller.rangeIndices r ↔ i ∈ newIndices)
      by (unfold newIndices; by rewrite elem_of_list_to_set).
    rewrite Hnew, Hidx, Hremoved, !elem_of_difference.
    split; intros (Hi & Hv & Ha); (split_and!; [done | | done]).
    - intros Hp. apply Hv. split; [done |]. by intros [_ ?].
    - intros [Hp _]. by apply Hv. }
  assert (Hset : (list_to_set new : gset Z)
                 = filter (λ i, VirtualScroller.acquired renderItemFn
                                  (VirtualScroller.items vs)
                                  (VirtualScroller.ITEM_HEIGHT vs) i = true)
                          (newIndices ∖ previousSet)).
  { apply set_eq. intros i.
    rewrite elem_of_list_to_set, Hadded, elem_of_filter, elem_of_difference.
    tauto. }
  split; [exact Hremoved |]. split; [exact Hset |]. split_and!.
  - intros Hok. rewrite Hset. apply set_eq. intros i.
    rewrite elem_of_filter. split; [tauto |]. intros Hi. split; [| done].
    apply elem_of_difference in Hi as [Hi _]. apply Hrange in Hi.
    unfold VirtualScroller.acquired, Js.index.
    destruct (Z.ltb_spec i 0); [lia |].
    destruct (VirtualScroller.items vs !! Z.to_nat i) as [item |] eqn:Hitem.
    + by apply bool_decide_eq_true_2.
    + apply lookup_ge_None in Hitem. lia.
  - rewrite Hset, Hremoved. intros i.
    rewrite elem_of_filter, !elem_of_difference. tauto.
  - intros i Hprev Hin. rewrite Hremoved.
    rewrite elem_of_difference, elem_of_list_to_set, Hadded.
    rewrite elem_of_union, elem_of_difference, elem_of_difference.
    split_and!; [tauto | tauto |]. right. split; [done |]. tauto.
  - rewrite Hremoved. apply set_eq. intros i.
    rewrite !elem_of_union, !elem_of_difference, elem_of_intersection.
    destruct (decide (i ∈ newIndices)); tauto.
Qed.

Lemma diff_minimality_witness :
  let renderItemFn :=
    λ item i (_ : Z), Some (KanbanBoard.renderItem item i) in
  let its := (λ k, mkItem (Z.of_nat k) "task") <$> seq 0 40 in
  let vs := VirtualScroller.mk its 50 5 (list_to_set (seqZ 0 16)) in
  let pass := VirtualScroller.renderVisibleItems renderItemFn vs 600 400 in
  VirtualScroller.visibleRange 40 600 400 50 5 = (4, 28) ∧
  VirtualScroller.toRemove pass = list_to_set (seqZ 0 16) ∖ list_to_set (seqZ 4 24) ∧
  (list_to_set (VirtualScroller.toAdd pass) : gset Z)
  = list_to_set (seqZ 4 24) ∖ list_to_set (seqZ 0 16) ∧
  VirtualScroller.toAdd pass = seqZ 16 12.
Proof.
  intros renderItemFn its vs pass.
  destruct (diff_minimality renderItemFn vs 600 400 ltac:(done))
    as (Hremove & _ & Hadd & _).
  split; [reflexivity |]. split; [exact Hremove |].
  split; [| by vm_compute]. apply Hadd. intros item i. by eexists.
Defined.

(** * Further properties of the board's operations *)

(** ** Assignment to a column *)

Section Assignment.
Import KanbanBoard.

Lemma setItems_keys (c : Z) (new : list Item) (columns : list Column) :
  map (λ col, (col_id col, col_title col)) (setItems c new columns)
  = map (λ col, (col_id col, col_title col)) columns.
Proof.
  induction columns as [| x columns IH]; simpl; [done |].
  destruct (col_id x =? c); simpl; [done | by rewrite IH].
Qed.

Lemma setItems_setItems (c : Z) (new new' : list Item)
    (columns : list Column) :
  setItems c new' (setItems c new columns) = setItems c new' columns.
Proof.
  induction columns as [| x columns IH]; simpl; [done |].
  destruct (Z.eqb_spec (col_id x) c) as [Hx | Hx]; simpl.
  - by rewrite Hx, Z.eqb_refl.
  - destruct (Z.eqb_spec (col_id x) c); [done | by rewrite IH].
Qed.

Lemma setItems_same (c : Z) (columns : list Column) (col : Column) :
  findColumn c columns = Some col →
  setItems c (col_items col) columns = columns.
Proof.
  intros H. destruct (findColumn_split _ _ _ H)
    as (pre & post & -> & _ & _ & Hset).
  rewrite Hset. by destruct col.
Qed.

Lemma insert_delete_same {A} (l : list A) (i : nat) (x : A) :
  l !! i = Some x →
  take i (delete i l) ++ x :: drop i (delete i l) = l.
Proof.
  intros Hx. rewrite delete_take_drop.
  pose proof (lookup_lt_Some _ _ _ Hx) as Hlt.
  rewrite take_app_le, drop_app_ge by (rewrite length_take; lia).
  rewrite take_take, length_take.
  replace (i `min` i)%nat with i by lia.
  replace (i - i `min` length l)%nat with 0%nat by lia.
  rewrite drop_0. by apply take_drop_middle.
Qed.

Lemma delete_insert_same {A} (l : list A) (v : nat) (x : A) :
  (v ≤ length l)%nat →
  (take v l ++ x :: drop v l) !! v = Some x ∧
  delete v (take v l ++ x :: drop v l) = l.
Proof.
  intros Hv. assert (Hlen : length (take v l) = v)
    by (rewrite length_take; lia). split.
  - by apply list_lookup_middle.
  - rewrite <- Hlen at 1. by rewrite delete_middle, take_drop.
Qed.

End Assignment.

(** ** [addItem] and [removeItem] on an existing column *)

(** X1.  [addItem] on an existing column inserts the item at the index
    clamped to [[0, length]]: the item is found there, deleting it gives
    the former items back (no other item moves relative to the others),
    and the column is one longer.  An index at or below [0] inserts at
    the front, an index at or above the length appends, an index in
    between is used as it is. *)
Theorem addItem_inserts_clamped
    (columns : list Column) (c index : Z) (item : Item) (col : Column) :
  KanbanBoard.findColumn c columns = Some col →
  let n := length (col_items col) in
  let v := Z.to_nat (Z.min (Z.max 0 index) (Z.of_nat n)) in
  ∃ col',
    KanbanBoard.findColumn c (KanbanBoard.addItem columns c index item)
    = Some col' ∧
    col_items col' !! v = Some item ∧
    delete v (col_items col') = col_items col ∧
    length (col_items col') = S n ∧
    (index ≤ 0 → v = 0%nat) ∧
    (Z.of_nat n ≤ index → v = n) ∧
    (0 ≤ index ≤ Z.of_nat n → Z.of_nat v = index).
Proof.
  intros Hcol n v.
  rewrite (addItem_found _ _ _ _ _ Hcol).
  rewrite (findColumn_setItems_eq _ _ _ _ Hcol). eexists. split; [done |].
  simpl. fold n v. assert (Hv : (v ≤ n)%nat) by (unfold v; lia).
  destruct (delete_insert_same (col_items col) v item Hv) as [Hl Hd].
  split_and!; [done | done | by rewrite length_insert_at | | |];
    unfold v; lia.
Qed.

Lemma addItem_inserts_clamped_witness :
  let columns := [mkColumn 0 "To Do" [mkItem 1 "A"; mkItem 2 "B"]] in
  ∃ col',
    KanbanBoard.findColumn 0
      (KanbanBoard.addItem columns 0 7 (mkItem 9 "N")) = Some col' ∧
    col_items col' !! 2%nat = Some (mkItem 9 "N") ∧
    delete 2%nat (col_items col') = [mkItem 1 "A"; mkItem 2 "B"].
Proof.
  intros columns.
  destruct (addItem_inserts_clamped columns 0 7 (mkItem 9 "N") _ eq_refl)
    as (col' & Hfind & Hat & Hrest & _).
  exists col'. split; [exact Hfind |]. split; [exact Hat | exact Hrest].
Defined.

(** X2.  [removeItem] with an index inside the column removes the item at
    that index and nothing else: the items before it keep their indices,
    the items after it move down by one, and the column is one shorter. *)
Theorem removeItem_removes_index
    (columns : list Column) (c index : Z) (col : Column) (it : Item) :
  KanbanBoard.findColumn c columns = Some col →
  Js.index (col_items col) index = Some it →
  ∃ col',
    KanbanBoard.findColumn c (KanbanBoard.removeItem columns c index)
    = Some col' ∧
    col_items col' = delete (Z.to_nat index) (col_items col) ∧
    S (length (col_items col')) = length (col_items col) ∧
    (∀ j, (j < Z.to_nat index)%nat →
          col_items col' !! j = col_items col !! j) ∧
    (∀ j, (Z.to_nat index ≤ j)%nat →
          col_items col' !! j = col_items col !! S j).
Proof.
  intros Hcol Hit.
  rewrite (removeItem_in_range _ _ _ _ _ Hcol Hit).
  rewrite (findColumn_setItems_eq _ _ _ _ Hcol). eexists. split; [done |].
  simpl. apply index_Some in Hit as [_ Hit]. split_and!.
  - done.
  - by eapply length_delete_S.
  - intros j Hj. by apply list_lookup_delete_lt.
  - intros j Hj. by apply list_lookup_delete_ge.
Qed.

Lemma removeItem_removes_index_witness :
  let columns :=
    [mkColumn 0 "To Do" [mkItem 1 "A"; mkItem 2 "B"; mkItem 3 "C"]] in
  ∃ col',
    KanbanBoard.findColumn 0 (KanbanBoard.removeItem columns 0 1)
    = Some col' ∧
    col_items col' = [mkItem 1 "A"; mkItem 3 "C"].
Proof.
  intros columns.
  destruct (removeItem_removes_index columns 0 1 _ (mkItem 2 "B")
              eq_refl eq_refl) as (col' & Hfind & Hitems & _).
  exists col'. split; [exact Hfind | exact Hitems].
Defined.

(** ** What a drop leaves alone *)

Lemma removeItem_other (columns : list Column) (c index c' : Z) :
  c' ≠ c →
  KanbanBoard.findColumn c' (KanbanBoard.removeItem columns c index)
  = KanbanBoard.findColumn c' columns.
Proof.
  intros Hne. unfold KanbanBoard.removeItem.
  destruct (KanbanBoard.findColumn c columns); [| done].
  destruct (_ || _); [done |]. by apply findColumn_setItems_ne.
Qed.

Lemma addItem_other (columns : list Column) (c index c' : Z) (it : Item) :
  c' ≠ c →
  KanbanBoard.findColumn c' (KanbanBoard.addItem columns c index it)
  = KanbanBoard.findColumn c' columns.
Proof.
  intros Hne. unfold KanbanBoard.addItem.
  destruct (KanbanBoard.findColumn c columns); [| done].
  by apply findColumn_setItems_ne.
Qed.

(** X3.  Whatever the drop data, [handleDrop] leaves every column other
    than the origin and the target as it was. *)
Theorem handleDrop_other_columns
    (columns : list Column) (itemHeight : Z) (d : DragManager.Drop)
    (c : Z) :
  Dom.sourceColumnId (DragManager.item d) ≠ Some c →
  DragManager.targetList d ≠ c →
  KanbanBoard.findColumn c (KanbanBoard.handleDrop columns itemHeight d).1
  = KanbanBoard.findColumn c columns.
Proof.
  intros Hsrc Htgt. unfold KanbanBoard.handleDrop.
  destruct (Dom.sourceColumnId (DragManager.item d)) as [src |]; [| done].
  destruct (KanbanBoard.findItemById columns src _); [| done]. simpl.
  rewrite addItem_other by done. apply removeItem_other. congruence.
Qed.

Lemma handleDrop_other_columns_witness :
  let columns :=
    [mkColumn 0 "To Do" [mkItem 1 "A"; mkItem 2 "B"];
     mkColumn 1 "Doing" [mkItem 3 "C"];
     mkColumn 2 "Done" [mkItem 4 "D"]] in
  let dragged :=
    Dom.set_sourceColumnId (Some 0)
      (Dom.appendTo 0 (KanbanBoard.renderItem (mkItem 2 "B") 1)) in
  let d := DragManager.mkDrop dragged (Some 0) 2 (Dom.dragData dragged)
             10 0 true in
  KanbanBoard.findColumn 1 (KanbanBoard.handleDrop columns 50 d).1
  = Some (mkColumn 1 "Doing" [mkItem 3 "C"]).
Proof.
  intros columns dragged d.
  rewrite (handleDrop_other_columns columns 50 d 1); [reflexivity | |];
    simpl; congruence.
Defined.

(** ** The columns themselves *)

Lemma removeItem_keys (columns : list Column) (c index : Z) :
  map (λ col, (col_id col, col_title col))
      (KanbanBoard.removeItem columns c index)
  = map (λ col, (col_id col, col_title col)) columns.
Proof.
  unfold KanbanBoard.removeItem.
  destruct (KanbanBoard.findColumn c columns); [| done].
  destruct (_ || _); [done |]. apply setItems_keys.
Qed.

Lemma addItem_keys (columns : list Column) (c index : Z) (it : Item) :
  map (λ col, (col_id col, col_title col))
      (KanbanBoard.addItem columns c index it)
  = map (λ col, (col_id col, col_title col)) columns.
Proof.
  unfold KanbanBoard.addItem.
  destruct (KanbanBoard.findColumn c columns); [| done].
  apply setItems_keys.
Qed.

Lemma step_keys (b : KanbanBoard.t) (ev : KanbanBoard.Event) :
  map (λ col, (col_id col, col_title col))
      (KanbanBoard.data (KanbanBoard.step b ev))
  = map (λ col, (col_id col, col_title col)) (KanbanBoard.data b).
Proof.
  destruct ev as [e target rl rt | e inDoc | e dropList | e dropList
                  | trimmed c now]; simpl; try done.
  - by destruct (DragManager.pointerDownHandler _ _ _ _ _) as [dm [s |]].
  - destruct (DragManager.pointerUpHandler _ _ _) as [dm [d |]]; [| done].
    simpl. unfold KanbanBoard.handleDrop.
    destruct (Dom.sourceColumnId _) as [src |]; [| done].
    destruct (KanbanBoard.findItemById _ _ _); [| done]. simpl.
    by rewrite addItem_keys, removeItem_keys.
  - unfold KanbanBoard.addNewTask. case_bool_decide; [done |].
    destruct (KanbanBoard.findColumn c _); [| done]. apply setItems_keys.
Qed.

(** X4.  No event creates, deletes, renames or reorders a column: after
    any sequence of pointer events and new tasks the ids and titles of
    the columns are, in order, those the board started with. *)
Theorem run_keeps_columns (b : KanbanBoard.t) (evs : list KanbanBoard.Event) :
  map (λ col, (col_id col, col_title col))
      (KanbanBoard.data (KanbanBoard.run b evs))
  = map (λ col, (col_id col, col_title col)) (KanbanBoard.data b).
Proof.
  unfold KanbanBoard.run. revert b.
  induction evs as [| ev evs IH]; intros b; simpl; [done |].
  by rewrite IH, step_keys.
Qed.

(** ** Moves that undo themselves *)

Section Undo.
Import KanbanBoard.

Lemma setItems_comm (a b : Z) (xs ys : list Item) (columns : list Column) :
  a ≠ b →
  setItems a xs (setItems b ys columns)
  = setItems b ys (setItems a xs columns).
Proof.
  intros Hne. induction columns as [| x columns IH]; simpl; [done |].
  destruct (Z.eqb_spec (col_id x) a) as [Ha | Ha],
           (Z.eqb_spec (col_id x) b) as [Hb | Hb]; simpl.
  - congruence.
  - rewrite Ha, Z.eqb_refl. by destruct (Z.eqb_spec a b).
  - rewrite Hb, Z.eqb_refl. by destruct (Z.eqb_spec b a).
  - destruct (Z.eqb_spec (col_id x) a), (Z.eqb_spec (col_id x) b);
      try done. by rewrite IH.
Qed.

(** Removing the item at an index and inserting it again at this index
    gives the columns back. *)
Lemma remove_add_same (columns : list Column) (c i : Z) (col : Column)
    (it : Item) :
  findColumn c columns = Some col →
  Js.index (col_items col) i = Some it →
  addItem (removeItem columns c i) c i it = columns.
Proof.
  intros Hcol Hit.
  rewrite (removeItem_in_range _ _ _ _ _ Hcol Hit).
  pose proof (findColumn_setItems_eq c
                (delete (Z.to_nat i) (col_items col)) _ _ Hcol) as Hcol1.
  rewrite (addItem_found _ _ _ _ _ Hcol1). simpl.
  rewrite setItems_setItems.
  pose proof (index_Some_lt _ _ _ Hit) as Hlt.
  apply index_Some in Hit as [_ Hit].
  pose proof (length_delete_S _ _ _ Hit) as Hlen.
  replace (Z.to_nat (Z.min (Z.max 0 i) _)) with (Z.to_nat i) by lia.
  rewrite (insert_delete_same _ _ _ Hit). by apply setItems_same.
Qed.

End Undo.

(** X5.  Dropping an item back where it was changes nothing: on a
    reachable board, a release over the origin list whose index
    [floor (relativeY / itemHeight)] is the index of the dragged item
    leaves every column exactly as it was. *)
Theorem drop_at_own_index_is_noop
    (b : KanbanBoard.t) (e : DragManager.PointerEvent) (dl : Dom.DropList)
    (dragged : Dom.Element) :
  KanbanBoard.reachable b →
  DragManager.dragActive (KanbanBoard.dragManager b) = true →
  DragManager.draggedItem (KanbanBoard.dragManager b) = Some dragged →
  Dom.sourceColumnId dragged = Some (Dom.columnId dl) →
  Js.floor_div (DragManager.clientY e - Dom.rect_top dl)
               (KanbanBoard.ITEM_HEIGHT b)
  = Dom.itemIndex dragged →
  KanbanBoard.data (KanbanBoard.step b (KanbanBoard.PointerUp e (Some dl)))
  = KanbanBoard.data b.
Proof.
  intros Hreach Hactive Hel Hsame Hindex.
  destruct (reachable_invariant _ Hreach) as (Hnd & Hh & Hdrag).
  rewrite (step_PointerUp_active _ e dl _ Hactive Hel).
  set (d := DragManager.mkDrop _ _ _ _ _ _ _).
  destruct (handleDrop_commits (KanbanBoard.data b)
              (KanbanBoard.ITEM_HEIGHT b) d Hnd (Hdrag _ Hel) eq_refl)
    as (src & col & it & Hsrc & Hcol & Hit & _ & ->).
  simpl in *. rewrite Hh, or_else_same, Hindex.
  assert (src = Dom.columnId dl) as -> by congruence.
  by eapply remove_add_same.
Qed.

Lemma drop_at_own_index_is_noop_witness :
  let columns :=
    [mkColumn 0 "To Do"
       [mkItem 1 "A"; mkItem 2 "B"; mkItem 3 "C"; mkItem 4 "D"]] in
  let pressed := Dom.appendTo 0 (KanbanBoard.renderItem (mkItem 3 "C") 2) in
  let b :=
    KanbanBoard.step (KanbanBoard.new (Some columns) (Some 50))
      (KanbanBoard.PointerDown (DragManager.mkEvent 0 30 130) pressed 20 120)
  in
  KanbanBoard.data
    (KanbanBoard.step b
       (KanbanBoard.PointerUp (DragManager.mkEvent 0 60 160)
          (Some (Dom.mkDropList 0 20 3 None))))
  = columns.
Proof.
  intros columns pressed b.
  assert (Hnd : NoDup (KanbanBoard.allIds columns)).
  { apply (bool_decide_unpack _). by vm_compute. }
  assert (Hreach : KanbanBoard.reachable b).
  { apply KanbanBoard.reachable_step;
      [by apply KanbanBoard.reachable_new |].
    simpl. eexists 0, _, (mkItem 3 "C"), 2, None. by split_and!. }
  apply (drop_at_own_index_is_noop b _ (Dom.mkDropList 0 20 3 None)
           (Dom.set_sourceColumnId (Some 0) pressed) Hreach);
    reflexivity.
Defined.

(** X6.  A move to another column and the move back undo each other: take
    the item at index [i] of column [a] to any index [j] of a different
    column [b], then take it from where it landed there back to index [i]
    of [a]; the columns are what they were. *)
Theorem move_and_move_back
    (columns : list Column) (a b i j : Z) (colA colB : Column)
    (it : Item) :
  a ≠ b →
  KanbanBoard.findColumn a columns = Some colA →
  Js.index (col_items colA) i = Some it →
  KanbanBoard.findColumn b columns = Some colB →
  let moved :=
    KanbanBoard.addItem (KanbanBoard.removeItem columns a i) b j it in
  let landed := Z.min (Z.max 0 j) (Z.of_nat (length (col_items colB))) in
  (∃ colB', KanbanBoard.findColumn b moved = Some colB' ∧
            Js.index (col_items colB') landed = Some it) ∧
  KanbanBoard.addItem (KanbanBoard.removeItem moved b landed) a i it
  = columns.
Proof.
  intros Hne HcolA Hit HcolB moved landed.
  assert (HcolB1 : KanbanBoard.findColumn b
                     (KanbanBoard.removeItem columns a i) = Some colB)
    by by rewrite removeItem_other.
  assert (Hv : (Z.to_nat landed ≤ length (col_items colB))%nat)
    by (unfold landed; lia).
  destruct (delete_insert_same (col_items colB) (Z.to_nat landed) it Hv)
    as [Hat Hdel].
  pose proof (addItem_found _ _ j it _ HcolB1) as Hmoved.
  simpl in Hmoved. fold landed moved in Hmoved.
  assert (HcolB' : KanbanBoard.findColumn b moved
                   = Some (mkColumn (col_id colB) (col_title colB)
                             (take (Z.to_nat landed) (col_items colB)
                              ++ it :: drop (Z.to_nat landed)
                                             (col_items colB)))).
  { rewrite Hmoved. by apply findColumn_setItems_eq. }
  assert (Hlanded : Js.index
                      (take (Z.to_nat landed) (col_items colB)
                       ++ it :: drop (Z.to_nat landed) (col_items colB))
                      landed = Some it).
  { apply index_Some. split; [unfold landed; lia | done]. }
  split; [by eexists |].
  rewrite (removeItem_in_range _ _ _ _ _ HcolB' Hlanded). simpl.
  rewrite Hdel, Hmoved, setItems_setItems.
  rewrite (setItems_same _ _ _ HcolB1).
  by eapply remove_add_same.
Qed.

Lemma move_and_move_back_witness :
  let columns :=
    [mkColumn 0 "To Do" [mkItem 1 "A"; mkItem 2 "B"];
     mkColumn 1 "Done" [mkItem 3 "C"]] in
  let moved :=
    KanbanBoard.addItem (KanbanBoard.removeItem columns 0 1) 1 9
      (mkItem 2 "B") in
  moved = [mkColumn 0 "To Do" [mkItem 1 "A"];
           mkColumn 1 "Done" [mkItem 3 "C"; mkItem 2 "B"]] ∧
  KanbanBoard.addItem (KanbanBoard.removeItem moved 1 1) 0 1 (mkItem 2 "B")
  = columns.
Proof.
  intros columns moved. split; [reflexivity |].
  apply (move_and_move_back columns 0 1 1 9 _ _ (mkItem 2 "B")
           ltac:(done) eq_refl eq_refl eq_refl).
Defined.

(** ** The move that is reported *)

(** X7.  When a drop commits, the move handed to [onItemMove] names the
    dragged item, its origin column and index, the target column, and as
    target index the index that was requested, not clamped.  The item
    itself sits in the target column at the requested index clamped to
    the column; the reported index is the item's position exactly when
    the requested index lies within the column. *)
Theorem handleDrop_report
    (columns : list Column) (itemHeight : Z) (d : DragManager.Drop)
    (tcol : Column) :
  NoDup (KanbanBoard.allIds columns) →
  KanbanBoard.consistent columns (DragManager.item d) →
  DragManager.data d = Dom.dragData (DragManager.item d) →
  KanbanBoard.findColumn (DragManager.targetList d) columns = Some tcol →
  let requested :=
    Js.or_else (DragManager.targetIndex d)
               (Js.floor_div (DragManager.position d) itemHeight) in
  let result := KanbanBoard.handleDrop columns itemHeight d in
  ∃ src it tcol' landed,
    Dom.sourceColumnId (DragManager.item d) = Some src ∧
    item_id it = Dom.dd_id (DragManager.data d) ∧
    result.2
    = Some (KanbanBoard.mkMove it src (DragManager.targetList d)
              (Dom.itemIndex (DragManager.item d)) requested) ∧
    KanbanBoard.findColumn (DragManager.targetList d) result.1
    = Some tcol' ∧
    Js.index (col_items tcol') landed = Some it ∧
    (landed = requested ↔
     0 ≤ requested < Z.of_nat (length (col_items tcol'))).
Proof.
  intros Hnd Hcons Hdata Htcol requested result.
  destruct (handleDrop_commits columns itemHeight d Hnd Hcons Hdata)
    as (src & col & it & Hsrc & Hcol & Hit & Hid & Hresult).
  pose proof (handleDrop_target columns itemHeight d src col tcol it Hnd
                Hdata Hsrc Hcol Hit Hid Htcol) as Htarget.
  simpl in Htarget, Hresult. fold requested in Htarget, Hresult.
  set (base := if decide (src = DragManager.targetList d)
               then delete (Z.to_nat (Dom.itemIndex (DragManager.item d)))
                           (col_items col)
               else col_items tcol) in Htarget.
  set (landed := Z.min (Z.max 0 requested) (Z.of_nat (length base))).
  fold landed in Htarget.
  assert (Hv : (Z.to_nat landed ≤ length base)%nat) by (unfold landed; lia).
  destruct (delete_insert_same base (Z.to_nat landed) it Hv) as [Hat _].
  eexists src, it, _, landed.
  split_and!; [done | by rewrite Hdata | | exact Htarget | |].
  - unfold result. by rewrite Hresult.
  - simpl. apply index_Some. split; [unfold landed; lia | done].
  - simpl. rewrite length_insert_at. unfold landed. lia.
Qed.

Lemma handleDrop_report_witness :
  let columns :=
    [mkColumn 0 "To Do" [mkItem 1 "A"; mkItem 2 "B"];
     mkColumn 1 "Done" [mkItem 3 "C"]] in
  let dragged :=
    Dom.set_sourceColumnId (Some 0)
      (Dom.appendTo 0 (KanbanBoard.renderItem (mkItem 2 "B") 1)) in
  let d := DragManager.mkDrop dragged (Some 0) 1 (Dom.dragData dragged)
             500 10 true in
  let result := KanbanBoard.handleDrop columns 50 d in
  ∃ src it tcol' landed,
    result.2 = Some (KanbanBoard.mkMove it src 1 1 10) ∧
    KanbanBoard.findColumn 1 result.1 = Some tcol' ∧
    Js.index (col_items tcol') landed = Some it ∧
    landed ≠ 10.
Proof.
  intros columns dragged d result.
  assert (Hnd : NoDup (KanbanBoard.allIds columns)).
  { apply (bool_decide_unpack _). by vm_compute. }
  assert (Hcons : KanbanBoard.consistent columns (DragManager.item d)).
  { eexists 0, _, (mkItem 2 "B"). by split_and!. }
  destruct (handleDrop_report columns 50 d _ Hnd Hcons eq_refl eq_refl)
    as (src & it & tcol' & landed & _ & _ & Hreport & Hfind & Hat & Hiff).
  exists src, it, tcol', landed.
  split; [exact Hreport |]. split; [exact Hfind |]. split; [exact Hat |].
  intros Heq. apply Hiff in Heq. injection Hfind as <-.
  destruct Heq as [_ Heq]. vm_compute in Heq. discriminate.
Defined.

(** ** Looking an item up *)

(** X8.  [findItemById] answers with an item exactly when the column
    exists and holds an item with the id: the answer is an item of that
    column with that id, and there is no answer exactly when the column
    is missing or none of its items has the id. *)
Theorem findItemById_spec (columns : list Column) (c k : Z) :
  match KanbanBoard.findItemById columns c k with
  | Some it =>
      ∃ col, KanbanBoard.findColumn c columns = Some col ∧
             it ∈ col_items col ∧ item_id it = k
  | None =>
      ∀ col, KanbanBoard.findColumn c columns = Some col →
             k ∉ map item_id (col_items col)
  end.
Proof.
  unfold KanbanBoard.findItemById.
  destruct (KanbanBoard.findColumn c columns) as [col |]; [| done].
  destruct (List.find _ (col_items col)) as [it |] eqn:Hfind.
  - exists col. split; [done |]. by apply find_id_Some.
  - intros ? [= <-]. by apply find_id_None.
Qed.

Lemma find_id_app (xs ys : list Item) (k : Z) :
  k ∉ map item_id xs →
  List.find (λ item, item_id item =? k) (xs ++ ys)
  = List.find (λ item, item_id item =? k) ys.
Proof.
  induction xs as [| x xs IH]; simpl; [done |].
  rewrite not_elem_of_cons. intros [Hx Hxs].
  destruct (Z.eqb_spec (item_id x) k); [congruence | by apply IH].
Qed.

(** X9.  An item inserted with [addItem] under an id the column does not
    hold yet is found by [findItemById] under this id, at whatever index
    it was inserted. *)
Theorem findItemById_addItem
    (columns : list Column) (c index : Z) (item : Item) (col : Column) :
  KanbanBoard.findColumn c columns = Some col →
  item_id item ∉ map item_id (col_items col) →
  KanbanBoard.findItemById (KanbanBoard.addItem columns c index item)
                           c (item_id item)
  = Some item.
Proof.
  intros Hcol Hfresh. unfold KanbanBoard.findItemById.
  rewrite (addItem_found _ _ _ _ _ Hcol).
  rewrite (findColumn_setItems_eq _ _ _ _ Hcol). simpl.
  rewrite find_id_app.
  - simpl. by rewrite Z.eqb_refl.
  - intros Hin. apply Hfresh.
    apply list_elem_of_fmap in Hin as (x & -> & Hx).
    apply list_elem_of_fmap. exists x. split; [done |].
    by eapply subseteq_take.
Qed.

Lemma findItemById_addItem_witness :
  let columns := [mkColumn 0 "To Do" [mkItem 1 "A"; mkItem 2 "B"]] in
  KanbanBoard.findItemById (KanbanBoard.addItem columns 0 1 (mkItem 9 "N"))
                           0 9
  = Some (mkItem 9 "N").
Proof.
  intros columns.
  apply (findItemById_addItem columns 0 1 (mkItem 9 "N") _ eq_refl).
  simpl. rewrite !not_elem_of_cons. split_and!; [done | done |].
  apply not_elem_of_nil.
Defined.

(** X10.  In a column whose ids are distinct, the item removed by
    [removeItem] is no longer found by [findItemById]. *)
Theorem findItemById_removeItem
    (columns : list Column) (c index : Z) (col : Column) (it : Item) :
  KanbanBoard.findColumn c columns = Some col →
  NoDup (map item_id (col_items col)) →
  Js.index (col_items col) index = Some it →
  KanbanBoard.findItemById (KanbanBoard.removeItem columns c index)
                           c (item_id it)
  = None.
Proof.
  intros Hcol Hnd Hit. unfold KanbanBoard.findItemById.
  rewrite (removeItem_in_range _ _ _ _ _ Hcol Hit).
  rewrite (findColumn_setItems_eq _ _ _ _ Hcol). simpl.
  apply find_id_None. apply index_Some in Hit as [_ Hit].
  by apply NoDup_delete_notin.
Qed.

Lemma findItemById_removeItem_witness :
  let columns :=
    [mkColumn 0 "To Do" [mkItem 1 "A"; mkItem 2 "B"; mkItem 3 "C"]] in
  KanbanBoard.findItemById (KanbanBoard.removeItem columns 0 1) 0 2 = None.
Proof.
  intros columns.
  apply (findItemById_removeItem columns 0 1 _ (mkItem 2 "B") eq_refl);
    [| reflexivity].
  apply (bool_decide_unpack _). by vm_compute.
Defined.

(** ** New tasks *)

(** X11.  [addNewTask] with a text that is empty after trimming, or with
    a column id that matches no column, changes nothing.  Otherwise the
    new item, with [Date.now ()] as id and the trimmed text, becomes the
    last item of the column; the items already there keep their indices
    and every other column is as it was. *)
Theorem addNewTask_appends
    (columns : list Column) (trimmed : string) (c now : Z) :
  match KanbanBoard.findColumn c columns with
  | Some col =>
      if decide (trimmed = EmptyString)
      then KanbanBoard.addNewTask columns trimmed c now = columns
      else
        ∃ col',
          KanbanBoard.findColumn c
            (KanbanBoard.addNewTask columns trimmed c now) = Some col' ∧
          col_items col' = col_items col ++ [mkItem now trimmed] ∧
          last (col_items col') = Some (mkItem now trimmed) ∧
          (∀ j it, col_items col !! j = Some it →
                   col_items col' !! j = Some it) ∧
          (∀ c', c' ≠ c →
                 KanbanBoard.findColumn c'
                   (KanbanBoard.addNewTask columns trimmed c now)
                 = KanbanBoard.findColumn c' columns)
  | None => KanbanBoard.addNewTask columns trimmed c now = columns
  end.
Proof.
  unfold KanbanBoard.addNewTask.
  destruct (KanbanBoard.findColumn c columns) as [col |] eqn:Hcol.
  - destruct (decide (trimmed = EmptyString)) as [He | He].
    + by rewrite bool_decide_eq_true_2.
    + rewrite bool_decide_eq_false_2 by done.
      rewrite (findColumn_setItems_eq _ _ _ _ Hcol). eexists.
      split; [done |]. simpl. split_and!.
      * done.
      * apply last_snoc.
      * intros j it Hj. by apply lookup_app_l_Some.
      * intros c' Hne. by apply findColumn_setItems_ne.
  - by case_bool_decide.
Qed.

(** ** Item height *)

Lemma step_heights (b : KanbanBoard.t) (ev : KanbanBoard.Event) :
  let b' := KanbanBoard.step b ev in
  KanbanBoard.ITEM_HEIGHT b' = KanbanBoard.ITEM_HEIGHT b ∧
  DragManager.itemHeight (KanbanBoard.dragManager b')
  = DragManager.itemHeight (KanbanBoard.dragManager b).
Proof.
  destruct ev as [e target rl rt | e inDoc | e dropList | e dropList
                  | trimmed c now]; simpl.
  - destruct (decide (DragManager.button e = 0)) as [Hb | Hb].
    + pose proof (pointerDownHandler_primary (KanbanBoard.dragManager b)
                    e target rl rt Hb) as Hp. simpl in Hp.
      destruct (DragManager.pointerDownHandler _ _ _ _ _) as [dm start].
      simpl in Hp. destruct Hp as (_ & _ & _ & Hi & _).
      by destruct start.
    + by rewrite pointerDownHandler_other_button.
  - split; [done |]. apply pointerMoveHandler_keeps.
  - split; [done |]. apply pointerMoveFrame_keeps.
  - unfold DragManager.pointerUpHandler.
    destruct (DragManager.dragActive (KanbanBoard.dragManager b)),
      (DragManager.draggedItem (KanbanBoard.dragManager b));
      try done. by destruct dropList.
  - done.
Qed.

(** X12.  The item height is never zero and never absent: a board made
    without an item height, or with [0], uses [50], and any other number
    is taken as it is; the drag manager of the board uses the same
    height, and no sequence of events changes either. *)
Theorem item_height_settled
    (columns : option (list Column)) (itemHeight : option Z)
    (evs : list KanbanBoard.Event) :
  let b := KanbanBoard.run (KanbanBoard.new columns itemHeight) evs in
  KanbanBoard.ITEM_HEIGHT b
  = match itemHeight with
    | Some h => if decide (h = 0) then 50 else h
    | None => 50
    end ∧
  KanbanBoard.ITEM_HEIGHT b ≠ 0 ∧
  DragManager.itemHeight (KanbanBoard.dragManager b)
  = KanbanBoard.ITEM_HEIGHT b.
Proof.
  intros b.
  assert (Hrun : ∀ b0 evs,
            let b' := KanbanBoard.run b0 evs in
            KanbanBoard.ITEM_HEIGHT b' = KanbanBoard.ITEM_HEIGHT b0 ∧
            DragManager.itemHeight (KanbanBoard.dragManager b')
            = DragManager.itemHeight (KanbanBoard.dragManager b0)).
  { intros b0 evs0. unfold KanbanBoard.run. revert b0.
    induction evs0 as [| ev evs0 IH]; intros b0; simpl; [done |].
    destruct (IH (KanbanBoard.step b0 ev)) as [-> ->].
    apply step_heights. }
  destruct (Hrun (KanbanBoard.new columns itemHeight) evs) as [H1 H2].
  fold b in H1, H2. rewrite H1, H2. simpl.
  pose proof (option_or_nonzero itemHeight) as Hnz.
  split_and!; [| done | by apply or_else_nonzero].
  destruct itemHeight as [h |]; simpl; [| done]. unfold Js.or_else.
  destruct (Z.eqb_spec h 0), (decide (h = 0)); done.
Qed.

(** * Further properties of the drag session *)

(** ** The end of a session *)

Section SessionEnd.
Import Dom DragManager.

Lemma cleanupDrag_idle (dm : t) : idle (cleanupDrag dm).
Proof. by unfold idle, cleanupDrag. Qed.

(** The manager is idle, or a session is open on an element. *)
Let settled (dm : t) : Prop :=
  idle dm ∨ (dragActive dm = true ∧ is_Some (draggedItem dm)).

Lemma step_settled (b : KanbanBoard.t) (ev : KanbanBoard.Event) :
  settled (KanbanBoard.dragManager b) →
  settled (KanbanBoard.dragManager (KanbanBoard.step b ev)).
Proof.
  intros Hs.
  destruct ev as [e target rl rt | e inDoc | e dropList | e dropList
                  | trimmed c now]; simpl; [| | | | done].
  - destruct (decide (button e = 0)) as [Hb | Hb].
    + pose proof (pointerDownHandler_primary (KanbanBoard.dragManager b)
                    e target rl rt Hb) as Hp. simpl in Hp.
      destruct (pointerDownHandler _ _ _ _ _) as [dm start].
      simpl in Hp. destruct Hp as (Hd & Ha & _).
      right. destruct start; simpl; [by split | split; [done |]].
      by rewrite Hd.
    + by rewrite pointerDownHandler_other_button.
  - unfold pointerMoveHandler.
    destruct Hs as [Hi | (Ha & Hd)].
    + pose proof Hi as (Ha & _). rewrite Ha. simpl. by left.
    + rewrite Ha, (bool_decide_eq_true_2 _ Hd). simpl.
      destruct inDoc; simpl.
      * right. unfold updateClonePosition.
        by destruct (clone (KanbanBoard.dragManager b)).
      * left. apply cleanupDrag_idle.
  - destruct (pointerMoveFrame_keeps (KanbanBoard.dragManager b) e dropList)
      as (Hd & _ & Ha & _).
    destruct Hs as [Hi | (Ha' & Hd')].
    + left. unfold pointerMoveFrame. pose proof Hi as (Hidle & _).
      by rewrite Hidle.
    + right. simpl in *. by rewrite Ha, Hd.
  - destruct Hs as [Hi | (Ha & [el Hel])].
    + rewrite pointerUpHandler_idle by (left; apply Hi). by left.
    + unfold pointerUpHandler. rewrite Ha, Hel.
      destruct dropList; simpl; left; apply cleanupDrag_idle.
Qed.

Lemma run_settled (b : KanbanBoard.t) (evs : list KanbanBoard.Event) :
  settled (KanbanBoard.dragManager b) →
  settled (KanbanBoard.dragManager (KanbanBoard.run b evs)).
Proof.
  unfold KanbanBoard.run. revert b.
  induction evs as [| ev evs IH]; intros b Hs; simpl; [done |].
  by apply IH, step_settled.
Qed.

(** X13.  Whatever the events, the manager of a board is in one of two
    states: a session is open on a dragged element, or the manager is
    idle and nothing of the last session is left (no dragged element, no
    origin list, no clone, no placeholder, no drop target, placeholder
    index [-1]). *)
Theorem session_open_or_idle
    (columns : option (list Column)) (itemHeight : option Z)
    (evs : list KanbanBoard.Event) :
  let dm :=
    KanbanBoard.dragManager
      (KanbanBoard.run (KanbanBoard.new columns itemHeight) evs) in
  if dragActive dm then is_Some (draggedItem dm) else idle dm.
Proof.
  intros dm.
  assert (Hs : settled dm).
  { apply run_settled. left. by unfold idle. }
  destruct Hs as [Hi | (Ha & Hd)].
  - destruct Hi as (Ha & Hrest). rewrite Ha. by split.
  - by rewrite Ha.
Qed.

(** Without an open session, moves, frames and releases do nothing. *)
Lemma step_pressFree_closed (b : KanbanBoard.t) (ev : KanbanBoard.Event) :
  KanbanBoard.pressFree ev = true →
  dragActive (KanbanBoard.dragManager b) = false ∨
  draggedItem (KanbanBoard.dragManager b) = None →
  KanbanBoard.step b ev
  = KanbanBoard.mk (KanbanBoard.data b) (KanbanBoard.ITEM_HEIGHT b)
                   (KanbanBoard.dragManager b).
Proof.
  intros Hev Hclosed.
  assert (Hguard : negb (dragActive (KanbanBoard.dragManager b))
                   || negb (bool_decide
                              (is_Some (draggedItem
                                          (KanbanBoard.dragManager b))))
                   = true).
  { destruct Hclosed as [-> | ->]; [done |].
    rewrite bool_decide_eq_false_2 by (by intros [? ?]).
    by destruct (dragActive _). }
  destruct ev as [e target rl rt | e inDoc | e dropList | e dropList
                  | trimmed c now]; simpl in *; try done.
  - unfold pointerMoveHandler. by rewrite Hguard.
  - unfold pointerMoveFrame. by rewrite Hguard.
  - by rewrite pointerUpHandler_idle.
Qed.

Lemma run_pressFree_closed (b : KanbanBoard.t)
    (evs : list KanbanBoard.Event) :
  forallb KanbanBoard.pressFree evs = true →
  dragActive (KanbanBoard.dragManager b) = false ∨
  draggedItem (KanbanBoard.dragManager b) = None →
  KanbanBoard.data (KanbanBoard.run b evs) = KanbanBoard.data b.
Proof.
  unfold KanbanBoard.run. revert b.
  induction evs as [| ev evs IH]; intros b Hevs Hclosed; simpl; [done |].
  simpl in Hevs. apply andb_prop in Hevs as [Hev Hevs].
  rewrite (step_pressFree_closed _ _ Hev Hclosed).
  by rewrite IH.
Qed.

Lemma pointerUp_closes (b : KanbanBoard.t) (e : PointerEvent)
    (dropList : option DropList) :
  let b' := KanbanBoard.step b (KanbanBoard.PointerUp e dropList) in
  dragActive (KanbanBoard.dragManager b') = false ∨
  draggedItem (KanbanBoard.dragManager b') = None.
Proof.
  simpl. unfold pointerUpHandler.
  destruct (dragActive (KanbanBoard.dragManager b)) eqn:Ha;
    [| by left].
  destruct (draggedItem (KanbanBoard.dragManager b)) eqn:Hd;
    [| by right].
  destruct dropList; by left.
Qed.

Lemma pointerMove_detached_closes (b : KanbanBoard.t) (e : PointerEvent) :
  let b' := KanbanBoard.step b (KanbanBoard.PointerMove e false) in
  dragActive (KanbanBoard.dragManager b') = false ∨
  draggedItem (KanbanBoard.dragManager b') = None.
Proof.
  simpl. unfold pointerMoveHandler.
  destruct (dragActive (KanbanBoard.dragManager b)) eqn:Ha;
    [| by left].
  destruct (draggedItem (KanbanBoard.dragManager b)) eqn:Hd;
    [| by right].
  by left.
Qed.

End SessionEnd.

(** X14.  A session commits at most once.  After a pointer release, on
    any board and whether or not the release committed a drop, further
    moves, frame callbacks and releases leave the columns as the release
    left them, until an item is pressed again. *)
Theorem one_commit_per_session
    (b : KanbanBoard.t) (e : DragManager.PointerEvent)
    (dropList : option Dom.DropList) (evs : list KanbanBoard.Event) :
  forallb KanbanBoard.pressFree evs = true →
  KanbanBoard.data
    (KanbanBoard.run b (KanbanBoard.PointerUp e dropList :: evs))
  = KanbanBoard.data (KanbanBoard.step b (KanbanBoard.PointerUp e dropList)).
Proof.
  intros Hevs. unfold KanbanBoard.run. cbn [foldl].
  apply (run_pressFree_closed _ evs Hevs). apply pointerUp_closes.
Qed.

Lemma one_commit_per_session_witness :
  let columns :=
    [mkColumn 0 "To Do" [mkItem 1 "A"; mkItem 2 "B"];
     mkColumn 1 "Done" [mkItem 3 "C"]] in
  let pressed := Dom.appendTo 0 (KanbanBoard.renderItem (mkItem 2 "B") 1) in
  let b :=
    KanbanBoard.step (KanbanBoard.new (Some columns) (Some 50))
      (KanbanBoard.PointerDown (DragManager.mkEvent 0 30 80) pressed 20 70) in
  let release :=
    KanbanBoard.PointerUp (DragManager.mkEvent 0 330 30)
      (Some (Dom.mkDropList 1 20 1 None)) in
  KanbanBoard.data (KanbanBoard.run b [release; release; release])
  = [mkColumn 0 "To Do" [mkItem 1 "A"];
     mkColumn 1 "Done" [mkItem 2 "B"; mkItem 3 "C"]].
Proof.
  intros columns pressed b release.
  pose proof (one_commit_per_session b (DragManager.mkEvent 0 330 30)
                (Some (Dom.mkDropList 1 20 1 None)) [release; release]
                eq_refl) as Honce.
  fold release in Honce. rewrite Honce. reflexivity.
Defined.

(** X15.  A pointer move that finds the dragged element no longer in the
    document ends the session without a drop: whatever moves, frame
    callbacks and releases follow, the columns stay as they were. *)
Theorem detached_item_aborts
    (b : KanbanBoard.t) (e : DragManager.PointerEvent)
    (evs : list KanbanBoard.Event) :
  forallb KanbanBoard.pressFree evs = true →
  KanbanBoard.data
    (KanbanBoard.run b (KanbanBoard.PointerMove e false :: evs))
  = KanbanBoard.data b.
Proof.
  intros Hevs. unfold KanbanBoard.run. cbn [foldl].
  rewrite (run_pressFree_closed _ evs Hevs).
  - done.
  - apply pointerMove_detached_closes.
Qed.

Lemma detached_item_aborts_witness :
  let columns :=
    [mkColumn 0 "To Do" [mkItem 1 "A"; mkItem 2 "B"];
     mkColumn 1 "Done" [mkItem 3 "C"]] in
  let pressed := Dom.appendTo 0 (KanbanBoard.renderItem (mkItem 2 "B") 1) in
  let b :=
    KanbanBoard.step (KanbanBoard.new (Some columns) (Some 50))
      (KanbanBoard.PointerDown (DragManager.mkEvent 0 30 80) pressed 20 70) in
  KanbanBoard.data
    (KanbanBoard.run b
       [KanbanBoard.PointerMove (DragManager.mkEvent 0 300 40) false;
        KanbanBoard.PointerUp (DragManager.mkEvent 0 330 30)
          (Some (Dom.mkDropList 1 20 1 None))])
  = columns.
Proof.
  intros columns pressed b.
  apply (detached_item_aborts b (DragManager.mkEvent 0 300 40)
           [KanbanBoard.PointerUp (DragManager.mkEvent 0 330 30)
              (Some (Dom.mkDropList 1 20 1 None))]).
  reflexivity.
Defined.

(** ** The clone and the placeholder *)



Lemma updatePlaceholderPosition_settles (dm : DragManager.t)
    (e : DragManager.PointerEvent) (dl : Dom.DropList) :
  DragManager.dragActive dm = true →
  is_Some (DragManager.draggedItem dm) →
  let dm' := DragManager.updatePlaceholderPosition dm e dl in
  is_Some (DragManager.placeholder dm') ∧
  DragManager.currentDropTarget dm' = DragManager.currentDropTarget dm.
Proof.
  intros Hactive Hdragged. unfold DragManager.updatePlaceholderPosition.
  rewrite Hactive, (bool_decide_eq_true_2 _ Hdragged). simpl.
  destruct (DragManager.placeholder dm) eqn:Hp; simpl;
    destruct (Z.eqb_spec
                (Js.floor_div (DragManager.clientY e - Dom.rect_top dl)
                              (DragManager.itemHeight dm))
                (DragManager.placeholderIndex dm)); simpl;
    rewrite ?Hp; split; try done; by eexists.
Qed.

Lemma updatePlaceholderPosition_same_index (dm : DragManager.t)
    (e : DragManager.PointerEvent) (dl : Dom.DropList) :
  is_Some (DragManager.placeholder dm) →
  Js.floor_div (DragManager.clientY e - Dom.rect_top dl)
               (DragManager.itemHeight dm)
  = DragManager.placeholderIndex dm →
  DragManager.updatePlaceholderPosition dm e dl = dm.
Proof.
  intros [p Hp] Hindex. unfold DragManager.updatePlaceholderPosition.
  destruct (negb (DragManager.dragActive dm) || _); [done |].
  rewrite Hp. simpl. by rewrite Hindex, Z.eqb_refl.
Qed.

(** X17.  The placeholder is moved only when its index changes.  During
    an open session, after a frame callback over a droppable list, a
    second frame callback over the same list whose pointer gives the same
    index leaves the drag manager exactly as it is, whatever else differs
    between the two pointer positions. *)
Theorem frame_same_slot_changes_nothing
    (dm : DragManager.t) (e e' : DragManager.PointerEvent)
    (dl dl' : Dom.DropList) :
  DragManager.dragActive dm = true →
  is_Some (DragManager.draggedItem dm) →
  Dom.columnId dl' = Dom.columnId dl →
  Js.floor_div (DragManager.clientY e' - Dom.rect_top dl')
               (DragManager.itemHeight dm)
  = Js.floor_div (DragManager.clientY e - Dom.rect_top dl)
                 (DragManager.itemHeight dm) →
  let dm1 := (DragManager.pointerMoveFrame dm e (Some dl)).1 in
  (DragManager.pointerMoveFrame dm1 e' (Some dl')).1 = dm1.
Proof.
  intros Hactive Hdragged Hcol Hslot dm1.
  destruct (pointerMoveFrame_keeps dm e (Some dl))
    as (Hd1 & Hh1 & Ha1 & _). fold dm1 in Hd1, Hh1, Ha1.
  pose proof (pointerMoveFrame_index dm e dl Hactive Hdragged) as Hi1.
  fold dm1 in Hi1.
  assert (Hstate : is_Some (DragManager.placeholder dm1) ∧
                   DragManager.currentDropTarget dm1
                   = DragManager.Droppable (Dom.columnId dl)).
  { unfold dm1, DragManager.pointerMoveFrame.
    rewrite Hactive, (bool_decide_eq_true_2 _ Hdragged). simpl.
    destruct (decide _) as [Heq | Hne]; simpl.
    - rewrite <- Heq.
      destruct (updatePlaceholderPosition_settles dm e dl Hactive Hdragged)
        as [Hp Ht]. by rewrite Ht, <- Heq.
    - match goal with
      | |- context [DragManager.updatePlaceholderPosition ?x e dl] =>
          destruct (updatePlaceholderPosition_settles x e dl Hactive
                      Hdragged) as [Hp Ht]
      end.
      by rewrite Ht. }
  destruct Hstate as [Hp1 Ht1].
  unfold DragManager.pointerMoveFrame at 1.
  rewrite Ha1, Hactive, Hd1, (bool_decide_eq_true_2 _ Hdragged). simpl.
  rewrite Hcol, Ht1. destruct (decide _) as [_ | Hne]; [| done].
  rewrite Ht1. apply updatePlaceholderPosition_same_index; [done |].
  by rewrite Hh1, Hslot, Hi1.
Qed.

Lemma frame_same_slot_changes_nothing_witness :
  let target := Dom.appendTo 0 (KanbanBoard.renderItem (mkItem 2 "B") 1) in
  let dm :=
    (DragManager.pointerDownHandler (DragManager.new (Some 50))
       (DragManager.mkEvent 0 30 80) target 20 70).1 in
  let dm1 :=
    (DragManager.pointerMoveFrame dm (DragManager.mkEvent 0 330 130)
       (Some (Dom.mkDropList 1 20 4 None))).1 in
  DragManager.placeholder dm1 = Some (DragManager.InsertedBefore 2) ∧
  (DragManager.pointerMoveFrame dm1 (DragManager.mkEvent 0 340 160)
     (Some (Dom.mkDropList 1 20 7 None))).1 = dm1.
Proof.
  intros target dm dm1. split; [reflexivity |].
  apply (frame_same_slot_changes_nothing dm
           (DragManager.mkEvent 0 330 130) (DragManager.mkEvent 0 340 160)
           (Dom.mkDropList 1 20 4 None) (Dom.mkDropList 1 20 7 None));
    [reflexivity | by eexists | reflexivity | reflexivity].
Defined.

(** * Further properties of the windowing *)

(** ** The size and the movement of the range *)

Lemma floor_div_mono (a a' b : Z) :
  0 < b → a ≤ a' → Js.floor_div a b ≤ Js.floor_div a' b.
Proof. intros Hb Ha. unfold Js.floor_div. by apply Z.div_le_mono. Qed.

Lemma ceil_div_mono (a a' b : Z) :
  0 < b → a ≤ a' → Js.ceil_div a b ≤ Js.ceil_div a' b.
Proof.
  intros Hb Ha. unfold Js.ceil_div.
  pose proof (Z.div_le_mono (- a') (- a) b Hb ltac:(lia)). lia.
Qed.

(** X18.  The range lies within the items, and its size does not depend
    on their number: for a positive item height and viewport height it
    holds at most [3 * effectiveBuffer + 1] indices, [effectiveBuffer]
    being [max (bufferItems, ceil (containerHeight / itemHeight))],
    however long the list and wherever it is scrolled. *)
Theorem range_is_bounded
    (itemCount scrollTop containerHeight itemHeight bufferItems : Z) :
  0 < itemHeight →
  0 < containerHeight →
  let r := VirtualScroller.visibleRange itemCount scrollTop
             containerHeight itemHeight bufferItems in
  let effectiveBuffer :=
    Z.max bufferItems (Js.ceil_div containerHeight itemHeight) in
  0 ≤ r.1 ∧ r.2 ≤ itemCount ∧
  r.2 - r.1 ≤ 3 * effectiveBuffer + 1 ∧
  Z.of_nat (length (VirtualScroller.rangeIndices r))
  ≤ 3 * effectiveBuffer + 1 ∧
  ∀ i, i ∈ VirtualScroller.rangeIndices r → 0 ≤ i < itemCount.
Proof.
  intros Hh Hv r effectiveBuffer.
  pose proof (floor_div_is_floor scrollTop itemHeight Hh) as Hq.
  pose proof (ceil_div_is_ceil containerHeight itemHeight Hh) as Hvc.
  pose proof (ceil_div_is_ceil (scrollTop + containerHeight) itemHeight Hh)
    as Hc.
  pose proof (ceil_div_pos containerHeight itemHeight Hh Hv) as Hpos.
  unfold is_floor in Hq. unfold is_ceil in Hvc, Hc.
  assert (Hsum : Js.ceil_div (scrollTop + containerHeight) itemHeight
                 ≤ Js.floor_div scrollTop itemHeight
                   + Js.ceil_div containerHeight itemHeight + 1) by nia.
  assert (H1 : 0 ≤ r.1) by (unfold r, VirtualScroller.visibleRange; simpl; lia).
  assert (H2 : r.2 ≤ itemCount)
    by (unfold r, VirtualScroller.visibleRange; simpl; lia).
  assert (H3 : r.2 - r.1 ≤ 3 * effectiveBuffer + 1).
  { unfold r, effectiveBuffer, VirtualScroller.visibleRange; simpl. lia. }
  split_and!; [done | done | done | |].
  - unfold VirtualScroller.rangeIndices. rewrite length_seqZ.
    lia.
  - intros i. unfold VirtualScroller.rangeIndices.
    rewrite elem_of_seqZ. lia.
Qed.

Lemma range_is_bounded_witness :
  let r := VirtualScroller.visibleRange 1000000 123456 600 50 5 in
  0 ≤ r.1 ∧ r.2 ≤ 1000000 ∧ r.2 - r.1 ≤ 37.
Proof.
  intros r.
  destruct (range_is_bounded 1000000 123456 600 50 5 ltac:(lia) ltac:(lia))
    as (H1 & H2 & H3 & _).
  split; [exact H1 |]. split; [exact H2 | exact H3].
Defined.

(** X19.  Scrolling down never moves the range up: for a positive item
    height, a larger scroll offset gives a start index and an end index
    that are at least what they were. *)
Theorem range_follows_scroll
    (itemCount scrollTop scrollTop' containerHeight itemHeight
       bufferItems : Z) :
  0 < itemHeight →
  scrollTop ≤ scrollTop' →
  let r := VirtualScroller.visibleRange itemCount scrollTop
             containerHeight itemHeight bufferItems in
  let r' := VirtualScroller.visibleRange itemCount scrollTop'
              containerHeight itemHeight bufferItems in
  r.1 ≤ r'.1 ∧ r.2 ≤ r'.2.
Proof.
  intros Hh Hs r r'.
  pose proof (floor_div_mono scrollTop scrollTop' itemHeight Hh Hs).
  pose proof (ceil_div_mono (scrollTop + containerHeight)
                (scrollTop' + containerHeight) itemHeight Hh ltac:(lia)).
  unfold r, r', VirtualScroller.visibleRange; simpl. lia.
Qed.

Lemma range_follows_scroll_witness :
  let r := VirtualScroller.visibleRange 100 120 300 50 5 in
  let r' := VirtualScroller.visibleRange 100 900 300 50 5 in
  r.1 ≤ r'.1 ∧ r.2 ≤ r'.2.
Proof. apply (range_follows_scroll 100 120 900 300 50 5); lia. Defined.

(** ** What a pass leaves materialized *)

Section Pass.
Import VirtualScroller.

Context {Handle : Type}.
Variable renderItemFn : Item → Z → Z → option Handle.
Variable vs : t.
Variables scrollTop containerHeight : Z.

Let r :=
  visibleRange (Z.of_nat (length (items vs))) scrollTop containerHeight
               (ITEM_HEIGHT vs) (BUFFER_ITEMS vs).
Let pass := renderVisibleItems renderItemFn vs scrollTop containerHeight.
Let got (i : Z) : Prop :=
  acquired renderItemFn (items vs) (ITEM_HEIGHT vs) i = true.

Lemma pass_after :
  after pass
  = mk (items vs) (ITEM_HEIGHT vs) (BUFFER_ITEMS vs)
       (visibleItems (after pass)).
Proof. reflexivity. Qed.

Lemma pass_spec :
  (∀ i, i ∈ toRemove pass ↔ i ∈ visibleItems vs ∧ ¬ (r.1 ≤ i < r.2)) ∧
  (∀ i, i ∈ toAdd pass ↔
        r.1 ≤ i < r.2 ∧ (i ∉ visibleItems vs) ∧ got i) ∧
  (∀ i, i ∈ visibleItems (after pass) ↔
        r.1 ≤ i < r.2 ∧ (i ∈ visibleItems vs ∨ got i)).
Proof.
  unfold pass, renderVisibleItems. cbv zeta.
  cbn [toRemove toAdd after visibleItems]. fold r.
  set (removed := filter (λ index, index < r.1 ∨ r.2 ≤ index)
                         (visibleItems vs)).
  destruct (addStep_fold renderItemFn (items vs) (ITEM_HEIGHT vs)
              (rangeIndices r) (visibleItems vs ∖ removed) [])
    as (new & Hfold & Hnew).
  rewrite Hfold. simpl.
  assert (Hremoved : ∀ i, i ∈ removed ↔
                          i ∈ visibleItems vs ∧ ¬ (r.1 ≤ i < r.2)).
  { intros i. unfold removed. rewrite elem_of_filter.
    split; intros [? ?]; split; try done; lia. }
  assert (Hidx : ∀ i, i ∈ rangeIndices r ↔ r.1 ≤ i < r.2).
  { intros i. unfold rangeIndices. rewrite elem_of_seqZ. lia. }
  assert (Hadded : ∀ i, i ∈ new ↔
                        r.1 ≤ i < r.2 ∧ (i ∉ visibleItems vs) ∧ got i).
  { intros i. rewrite Hnew, Hidx, elem_of_difference, Hremoved.
    unfold got.
    destruct (decide (i ∈ visibleItems vs)), (decide (r.1 ≤ i < r.2));
      tauto. }
  split_and!; [exact Hremoved | exact Hadded |].
  intros i.
  rewrite elem_of_union, elem_of_list_to_set, Hadded, elem_of_difference,
    Hremoved.
  destruct (decide (i ∈ visibleItems vs)), (decide (r.1 ≤ i < r.2));
    tauto.
Qed.

Lemma range_in_items : 0 ≤ r.1 ∧ r.2 ≤ Z.of_nat (length (items vs)).
Proof. unfold r, visibleRange; simpl. lia. Qed.

Lemma got_in_range (i : Z) :
  (∀ item j, is_Some (renderItemFn item j (ITEM_HEIGHT vs))) →
  r.1 ≤ i < r.2 → got i.
Proof.
  intros Hok Hi. pose proof range_in_items as [H0 Hn].
  unfold got, acquired, Js.index.
  destruct (Z.ltb_spec i 0); [lia |].
  destruct (items vs !! Z.to_nat i) as [item |] eqn:Hitem.
  - by apply bool_decide_eq_true_2.
  - apply lookup_ge_None in Hitem. lia.
Qed.

End Pass.

(** X20.  After a pass of a scroller whose item height is not zero,
    whatever was materialized before and whether or not renderings
    failed, every materialized index addresses an item: the materialized
    set lies within [[0, items.length)]. *)
Theorem materialized_within_items {Handle : Type}
    (renderItemFn : Item → Z → Z → option Handle)
    (vs : VirtualScroller.t) (scrollTop containerHeight i : Z) :
  VirtualScroller.ITEM_HEIGHT vs ≠ 0 →
  i ∈ VirtualScroller.visibleItems
        (VirtualScroller.after
           (VirtualScroller.renderVisibleItems renderItemFn vs scrollTop
              containerHeight)) →
  0 ≤ i < Z.of_nat (length (VirtualScroller.items vs)) ∧
  is_Some (Js.index (VirtualScroller.items vs) i).
Proof.
  intros _ Hi.
  destruct (pass_spec renderItemFn vs scrollTop containerHeight)
    as (_ & _ & Hafter).
  apply Hafter in Hi as [Hi _].
  pose proof (range_in_items vs scrollTop containerHeight) as [H0 Hn].
  assert (Hin : 0 ≤ i < Z.of_nat (length (VirtualScroller.items vs)))
    by lia.
  split; [exact Hin |]. unfold Js.index.
  destruct (Z.ltb_spec i 0); [lia |]. apply lookup_lt_is_Some. lia.
Qed.

Lemma materialized_within_items_witness :
  let renderItemFn :=
    λ item i (_ : Z), if i =? 3 then None
                      else Some (KanbanBoard.renderItem item i) in
  let its := (λ k, mkItem (Z.of_nat k) "task") <$> seq 0 6 in
  let vs := VirtualScroller.mk its 50 5 (list_to_set [2; 40; 41]) in
  let pass := VirtualScroller.renderVisibleItems renderItemFn vs 0 100 in
  VirtualScroller.toAdd pass = [0; 1; 4; 5] ∧
  0 ≤ 5 < Z.of_nat (length its).
Proof.
  intros renderItemFn its vs pass. split; [by vm_compute |].
  apply (materialized_within_items renderItemFn vs 0 100 5); [done |].
  by vm_compute.
Defined.

(** X21.  When no rendering fails, a pass leaves exactly the indices of
    the range materialized, whatever was materialized before; with a
    positive item height and viewport height and a non-negative scroll
    offset, every item whose top lies in the viewport has an element. *)
Theorem pass_materializes_range {Handle : Type}
    (renderItemFn : Item → Z → Z → option Handle)
    (vs : VirtualScroller.t) (scrollTop containerHeight : Z) :
  (∀ item i, is_Some (renderItemFn item i (VirtualScroller.ITEM_HEIGHT vs)))
  →
  0 < VirtualScroller.ITEM_HEIGHT vs →
  0 < containerHeight →
  0 ≤ scrollTop →
  let r :=
    VirtualScroller.visibleRange
      (Z.of_nat (length (VirtualScroller.items vs))) scrollTop
      containerHeight (VirtualScroller.ITEM_HEIGHT vs)
      (VirtualScroller.BUFFER_ITEMS vs) in
  let materialized :=
    VirtualScroller.visibleItems
      (VirtualScroller.after
         (VirtualScroller.renderVisibleItems renderItemFn vs scrollTop
            containerHeight)) in
  materialized = list_to_set (VirtualScroller.rangeIndices r) ∧
  ∀ i, i < Z.of_nat (length (VirtualScroller.items vs)) →
       scrollTop ≤ i * VirtualScroller.ITEM_HEIGHT vs
                 < scrollTop + containerHeight →
       i ∈ materialized.
Proof.
  intros Hok Hh Hv Hs r materialized.
  destruct (pass_spec renderItemFn vs scrollTop containerHeight)
    as (_ & _ & Hafter).
  assert (Hmat : ∀ i, i ∈ materialized ↔ r.1 ≤ i < r.2).
  { intros i. unfold materialized. rewrite Hafter. fold r. split.
    - by intros [? _].
    - intros Hi. split; [done |]. right.
      by apply (got_in_range renderItemFn vs scrollTop containerHeight). }
  split.
  - apply set_eq. intros i.
    rewrite Hmat, elem_of_list_to_set.
    unfold VirtualScroller.rangeIndices. rewrite elem_of_seqZ. lia.
  - intros i Hi Hvis. apply Hmat.
    by apply covered_by_range.
Qed.

Lemma pass_materializes_range_witness :
  let renderItemFn :=
    λ item i (_ : Z), Some (KanbanBoard.renderItem item i) in
  let its := (λ k, mkItem (Z.of_nat k) "task") <$> seq 0 40 in
  let vs := VirtualScroller.mk its 50 5 (list_to_set [0; 1; 39]) in
  VirtualScroller.visibleItems
    (VirtualScroller.after
       (VirtualScroller.renderVisibleItems renderItemFn vs 600 400))
  = list_to_set (seqZ 4 24).
Proof.
  intros renderItemFn its vs.
  destruct (pass_materializes_range renderItemFn vs 600 400) as [Hm _];
    [by eexists | done | done | done |].
  exact Hm.
Defined.

(** X22.  A pass with nothing new to do does nothing: running
    [renderVisibleItems] again with the same scroll offset and viewport
    height removes no element, creates none, and leaves the scroller as
    the first pass left it. *)
Theorem second_pass_changes_nothing {Handle : Type}
    (renderItemFn : Item → Z → Z → option Handle)
    (vs : VirtualScroller.t) (scrollTop containerHeight : Z) :
  let first :=
    VirtualScroller.renderVisibleItems renderItemFn vs scrollTop
      containerHeight in
  let second :=
    VirtualScroller.renderVisibleItems renderItemFn
      (VirtualScroller.after first) scrollTop containerHeight in
  VirtualScroller.toRemove second = ∅ ∧
  VirtualScroller.toAdd second = [] ∧
  VirtualScroller.after second = VirtualScroller.after first.
Proof.
  intros first second.
  destruct (pass_spec renderItemFn vs scrollTop containerHeight)
    as (_ & _ & Hafter1).
  destruct (pass_spec renderItemFn (VirtualScroller.after first) scrollTop
              containerHeight) as (Hremove2 & Hadd2 & Hafter2).
  fold first in Hafter1. fold second in Hremove2, Hadd2, Hafter2.
  change (VirtualScroller.items (VirtualScroller.after first))
    with (VirtualScroller.items vs) in Hremove2, Hadd2, Hafter2.
  change (VirtualScroller.ITEM_HEIGHT (VirtualScroller.after first))
    with (VirtualScroller.ITEM_HEIGHT vs) in Hremove2, Hadd2, Hafter2.
  change (VirtualScroller.BUFFER_ITEMS (VirtualScroller.after first))
    with (VirtualScroller.BUFFER_ITEMS vs) in Hremove2, Hadd2, Hafter2.
  split_and!.
  - apply set_eq. intros i. rewrite Hremove2, Hafter1.
    split; [tauto | by intros ?%not_elem_of_empty].
  - destruct (VirtualScroller.toAdd second) as [| k l]; [done |].
    exfalso. destruct (Hadd2 k) as [Hk _].
    destruct (Hk ltac:(left)) as (Hr & Hnot & Hgot).
    apply Hnot, Hafter1. split; [done | by right].
  - change (VirtualScroller.after second)
      with (VirtualScroller.mk (VirtualScroller.items vs)
              (VirtualScroller.ITEM_HEIGHT vs)
              (VirtualScroller.BUFFER_ITEMS vs)
              (VirtualScroller.visibleItems
                 (VirtualScroller.after second))).
    change (VirtualScroller.after first)
      with (VirtualScroller.mk (VirtualScroller.items vs)
              (VirtualScroller.ITEM_HEIGHT vs)
              (VirtualScroller.BUFFER_ITEMS vs)
              (VirtualScroller.visibleItems
                 (VirtualScroller.after first))).
    f_equal. apply set_eq. intros i. rewrite Hafter2, Hafter1.
    destruct (decide (i ∈ VirtualScroller.visibleItems vs)); tauto.
Qed.

(** ** New data *)

Lemma addStep_fold_all {Handle : Type}
    (renderItemFn : Item → Z → Z → option Handle) (its : list Item) (h : Z)
    (indices : list Z) (visible : gset Z) (added : list Z) :
  NoDup indices →
  (∀ i, i ∈ indices →
        (i ∉ visible) ∧
        VirtualScroller.acquired renderItemFn its h i = true) →
  foldl (VirtualScroller.addStep renderItemFn its h) (visible, added)
        indices
  = (list_to_set indices ∪ visible, added ++ indices).
Proof.
  revert visible added.
  induction indices as [| k indices IH]; intros visible added Hnd Hall.
  - simpl. by rewrite (left_id_L ∅ (∪)), app_nil_r.
  - apply NoDup_cons in Hnd as [Hk Hnd].
    destruct (Hall k ltac:(left)) as [Hkv Hka].
    cbn [foldl]. rewrite addStep_eq.
    destruct (decide (k ∈ visible)); [done |]. rewrite Hka.
    rewrite IH; [| done |].
    + rewrite list_to_set_cons, <- (assoc_L (++)). simpl.
      by rewrite (comm_L (∪) {[k]} (list_to_set indices)),
        <- (assoc_L (∪)).
    + intros i Hi. destruct (Hall i ltac:(by right)) as [Hiv Hia].
      split; [| done]. rewrite not_elem_of_union, elem_of_singleton.
      split; [| done]. intros ->. done.
Qed.

(** X23.  [updateItems], on a scroller whose item height is not zero,
    rebuilds the whole window: it forgets what was materialized, so its
    pass removes nothing, and when no rendering fails it creates an
    element for every index of the range computed for the new items, in
    ascending order, also for indices that were materialized before;
    afterwards exactly the range is materialized. *)
Theorem updateItems_rebuilds {Handle : Type}
    (renderItemFn : Item → Z → Z → option Handle)
    (vs : VirtualScroller.t) (newItems : list Item)
    (scrollTop containerHeight : Z) :
  VirtualScroller.ITEM_HEIGHT vs ≠ 0 →
  (∀ item i, is_Some (renderItemFn item i (VirtualScroller.ITEM_HEIGHT vs)))
  →
  let r :=
    VirtualScroller.visibleRange (Z.of_nat (length newItems)) scrollTop
      containerHeight (VirtualScroller.ITEM_HEIGHT vs)
      (VirtualScroller.BUFFER_ITEMS vs) in
  let pass :=
    VirtualScroller.updateItems renderItemFn vs newItems scrollTop
      containerHeight in
  VirtualScroller.toRemove pass = ∅ ∧
  VirtualScroller.toAdd pass = VirtualScroller.rangeIndices r ∧
  VirtualScroller.after pass
  = VirtualScroller.mk newItems (VirtualScroller.ITEM_HEIGHT vs)
      (VirtualScroller.BUFFER_ITEMS vs)
      (list_to_set (VirtualScroller.rangeIndices r)).
Proof.
  intros _ Hok r pass.
  unfold pass, VirtualScroller.updateItems,
    VirtualScroller.renderVisibleItems.
  cbv zeta.
  cbn [VirtualScroller.items VirtualScroller.ITEM_HEIGHT
       VirtualScroller.BUFFER_ITEMS VirtualScroller.visibleItems
       VirtualScroller.toRemove VirtualScroller.toAdd
       VirtualScroller.after].
  fold r.
  assert (Hremoved : filter (λ index, index < r.1 ∨ r.2 ≤ index)
                            (∅ : gset Z) = ∅).
  { apply set_eq. intros i. rewrite elem_of_filter.
    split; [by intros [_ ?] | by intros ?%not_elem_of_empty]. }
  rewrite Hremoved, difference_diag_L.
  rewrite addStep_fold_all.
  - simpl. by rewrite (right_id_L ∅ (∪)).
  - apply NoDup_seqZ.
  - intros i Hi. split; [apply not_elem_of_empty |].
    unfold VirtualScroller.rangeIndices in Hi.
    apply elem_of_seqZ in Hi.
    assert (Hb : 0 ≤ r.1 ∧ r.2 ≤ Z.of_nat (length newItems)).
    { unfold r, VirtualScroller.visibleRange; simpl. lia. }
    unfold VirtualScroller.acquired, Js.index.
    destruct (Z.ltb_spec i 0); [lia |].
    destruct (newItems !! Z.to_nat i) as [item |] eqn:Hitem.
    + by apply bool_decide_eq_true_2.
    + apply lookup_ge_None in Hitem. lia.
Qed.

Lemma updateItems_rebuilds_witness :
  let renderItemFn :=
    λ item i (_ : Z), Some (KanbanBoard.renderItem item i) in
  let its := (λ k, mkItem (Z.of_nat k) "task") <$> seq 0 40 in
  let vs := VirtualScroller.mk its 50 5 (list_to_set (seqZ 0 16)) in
  let pass := VirtualScroller.updateItems renderItemFn vs (take 10 its)
                0 400 in
  VirtualScroller.toRemove pass = ∅ ∧
  VirtualScroller.toAdd pass = seqZ 0 10.
Proof.
  intros renderItemFn its vs pass.
  destruct (updateItems_rebuilds renderItemFn vs (take 10 its) 0 400)
    as (Hremove & Hadd & _); [done | by eexists |].
  split; [exact Hremove | exact Hadd].
Defined.

(** * Properties of the timing helpers *)

Section TimingProperties.
Import Performance.

Context {Args : Type}.

Lemma debounce_run_calls (immediate : bool) (timeout : option Args)
    (calls : list Args) (last : Args) (rest : list Event) :
  debounce_run immediate timeout (map Call (calls ++ [last]) ++ rest)
  = let '(final, later) := debounce_run immediate (Some last) rest in
    (final,
     (if immediate && negb (bool_decide (is_Some timeout))
      then [default last (head calls)] else []) ++ later).
Proof.
  revert timeout. induction calls as [| c calls IH]; intros timeout.
  - simpl. by destruct (debounce_run immediate (Some last) rest).
  - cbn [app map debounce_run debounce_step]. unfold debounce_call at 1.
    rewrite IH.
    rewrite (bool_decide_eq_true_2 (is_Some (Some c))) by by eexists.
    destruct (debounce_run immediate (Some last) rest) as [final later].
    cbn [negb head default]. rewrite andb_false_r. cbn [app].
    by destruct (immediate && negb (bool_decide (is_Some timeout))).
Qed.

(** X24.  A debounced function (without [immediate]) called any number
    of times before its timer fires is not invoked by any of the calls;
    when the timer fires it is invoked once, with the arguments of the
    last call, whatever timer was pending before the first call. *)
Theorem debounce_trailing
    (timeout : option Args) (calls : list Args) (last : Args) :
  debounce_run false timeout (map Call (calls ++ [last]))
  = (Some last, []) ∧
  debounce_run false timeout (map Call (calls ++ [last]) ++ [Fire])
  = (None, [last]).
Proof.
  split.
  - rewrite <- (app_nil_r (map Call (calls ++ [last]))).
    by rewrite debounce_run_calls.
  - by rewrite debounce_run_calls.
Qed.

(** X25.  With [immediate] a debounced function is invoked by the first
    call of a burst, with the arguments of that call, and by no other
    call until the timer has fired; the timer itself invokes nothing.
    A burst that starts while a timer is still pending invokes nothing
    at all. *)
Theorem debounce_leading
    (first : Args) (calls : list Args) (pending : Args) :
  debounce_run true None (map Call (first :: calls) ++ [Fire])
  = (None, [first]) ∧
  debounce_run true (Some pending) (map Call (first :: calls) ++ [Fire])
  = (None, []).
Proof.
  assert (Hsplit : ∃ front last, first :: calls = front ++ [last] ∧
                                 default last (head front) = first).
  { destruct (exists_last (l := first :: calls)) as (front & last & Heq);
      [done |].
    exists front, last. split; [done |].
    destruct front as [| x front]; simpl in *; congruence. }
  destruct Hsplit as (front & last & -> & Hfirst).
  split; rewrite debounce_run_calls; simpl; [by rewrite Hfirst | done].
Qed.




End TimingProperties.
